(** * Bottles: the installer manager (src/backend/installer.py)

    A shallow embedding of [InstallerManager] and the properties of its
    methods.  Python values are a small dynamically typed universe, the
    methods live in a state-and-exception monad over a world made of the
    file system, the clock and the ordered trace of every call that leaves
    the module (collaborators, network, file operations). *)

From Stdlib Require Import ZArith Ascii DecimalString.
From stdpp Require Import gmap strings list fin_maps.

Set Warnings "-register-all".

(** ** Python values *)

(** What [yaml.safe_load] can hand back, restricted to the JSON-like part.
    A dict keeps its insertion order, which [for k in d] observes. *)
Inductive value : Type :=
  | VNone
  | VBool (b : bool)
  | VInt (n : Z)
  | VStr (s : string)
  | VList (l : list value)
  | VDict (d : list (string * value)).

Abbreviation dict := (list (string * value)).

(** [bool(v)] *)
Definition truthy (v : value) : bool :=
  match v with
  | VNone => false
  | VBool b => b
  | VInt n => negb (n =? 0)%Z
  | VStr s => negb (String.eqb s "")
  | VList l => match l with [] => false | _ => true end
  | VDict d => match d with [] => false | _ => true end
  end.

(** [d.get(k)] and [k in d] on the association list of a dict. *)
Fixpoint dict_get (d : dict) (k : string) : option value :=
  match d with
  | [] => None
  | (k', v) :: d' => if String.eqb k' k then Some v else dict_get d' k
  end.

Definition dict_keys (d : dict) : list string := fst <$> d.

(** [v == s] for a string literal [s]: only a [str] is equal to a [str]. *)
Definition eq_str (v : value) (s : string) : bool :=
  match v with
  | VStr s' => String.eqb s' s
  | _ => false
  end.

(** [v in l] for a list of strings [l]. *)
Definition in_strs (v : value) (l : list string) : bool :=
  existsb (eq_str v) l.

Definition string_of_Z (n : Z) : string :=
  NilZero.string_of_int (Z.to_int n).

Definition nl : string := String "010"%char "".

(** ** Exceptions and results *)

Inductive exn : Type :=
  | AttributeError
  | KeyError (k : string)
  | IndexError
  | TypeError
  | FileExistsError
  | IsADirectoryError
  | OSError
  | URLError
  | UnicodeDecodeError
  | YAMLError.

Inductive result (A : Type) : Type :=
  | Ok (a : A)
  | Raise (e : exn).
Arguments Ok {A} a.
Arguments Raise {A} e.

(** ** The environment configuration

    [BottleConfig] is the dict the environment manager hands out; its
    top-level entries are fixed, its [Parameters] and [Programs] are maps. *)
Record BottleConfig : Type := {
  Name : string;
  Path : string;
  Parameters : gmap string value;
  Installed_Dependencies : list string;
  Programs : gmap string value
}.

(** ** Everything that leaves the module, in order *)
Inductive event : Type :=
  | EUrlopen (url : string)
  | ELogError (msg : string)
  | EMakedirs (path : string)
  | EUrlretrieve (url path : string)
  | EAsyncInstallDependency (c : BottleConfig) (dep_index : value)
  | EDownload (component : string) (url file_name rename checksum : value)
  | ERunExecutable (c : BottleConfig) (file_path : string)
      (arguments environment : value)
  | EInstallDxvk (c : BottleConfig)
  | EInstallVkd3d (c : BottleConfig)
  | EUpdateConfiguration (c : BottleConfig) (key val : value) (scope : string)
  | EOpen (path : string)
  | EWrite (path chunk : string)
  | EClose (path : string)
  | EIdleAdd (widget : nat).

(** ** The world *)
Inductive node : Type :=
  | Dir
  | File (content : string).

Record World : Type := {
  fs : gmap string node;
  trace : list event;
  (** what [%s] prints for [datetime.now().timestamp()] *)
  now : string
}.

Definition is_there (f : gmap string node) (p : string) : bool :=
  match f !! p with Some _ => true | None => false end.

Definition is_file (f : gmap string node) (p : string) : bool :=
  match f !! p with Some (File _) => true | _ => false end.

Definition log (e : event) (w : World) : World :=
  {| fs := fs w; trace := trace w ++ [e]; now := now w |}.

Definition set_fs (f : gmap string node) (w : World) : World :=
  {| fs := f; trace := trace w; now := now w |}.

(** ** The monad of methods: state and exceptions *)
Definition M (A : Type) : Type := World → result A * World.

Definition ret {A} (a : A) : M A := λ w, (Ok a, w).
Definition raise {A} (e : exn) : M A := λ w, (Raise e, w).
Definition bind {A B} (m : M A) (k : A → M B) : M B :=
  λ w, match m w with
       | (Ok a, w') => k a w'
       | (Raise e, w') => (Raise e, w')
       end.
Definition emit (e : event) : M unit := λ w, (Ok tt, log e w).
Definition get_world : M World := λ w, (Ok w, w).

Notation "'let*' x ':=' m 'in' k" := (bind m (λ x, k))
  (at level 10, x binder, m at level 100, k at level 200, only parsing).

(** [try: m except: h] with a bare [except], which catches everything. *)
Definition try_except {A} (m : M A) (h : M A) : M A :=
  λ w, match m w with
       | (Ok a, w') => (Ok a, w')
       | (Raise _, w') => h w'
       end.

(** [try: m finally: c], the exit half of a [with] block. *)
Definition finally {A} (m : M A) (c : M unit) : M A :=
  λ w, match m w with
       | (r, w') => match c w' with
                    | (Ok _, w'') => (r, w'')
                    | (Raise e, w'') => (Raise e, w'')
                    end
       end.

Definition when (b : bool) (m : M unit) : M unit :=
  if b then m else ret tt.

(** [for x in l: body x] *)
Fixpoint for_each {A} (l : list A) (body : A → M unit) : M unit :=
  match l with
  | [] => ret tt
  | x :: l' => let* _ := body x in for_each l' body
  end.

(** ** Python primitives on values *)

(** [v.get(k)]: only a dict has the method. *)
Definition py_get (v : value) (k : string) : M value :=
  match v with
  | VDict d => ret (default VNone (dict_get d k))
  | _ => raise AttributeError
  end.

(** [v[k]] with a string key. *)
Definition py_getitem (v : value) (k : string) : M value :=
  match v with
  | VDict d => match dict_get d k with
               | Some x => ret x
               | None => raise (KeyError k)
               end
  | _ => raise TypeError
  end.

(** [v[i]] with an integer literal [i]. *)
Definition py_getitem_int (v : value) (i : nat) : M value :=
  match v with
  | VList l => match l !! i with
               | Some x => ret x
               | None => raise IndexError
               end
  | VStr s => match String.get i s with
              | Some c => ret (VStr (String c ""))
              | None => raise IndexError
              end
  | VDict _ => raise (KeyError (string_of_Z (Z.of_nat i)))
  | _ => raise TypeError
  end.

Fixpoint chars (s : string) : list value :=
  match s with
  | "" => []
  | String c s' => VStr (String c "") :: chars s'
  end.

(** [iter(v)]: what a [for] loop walks over. *)
Definition py_iter (v : value) : M (list value) :=
  match v with
  | VList l => ret l
  | VDict d => ret (VStr <$> dict_keys d)
  | VStr s => ret (chars s)
  | _ => raise TypeError
  end.

(** [fmt % args] for a format made of text and [%s] only; [None] is the
    [TypeError] of a wrong number of arguments. *)
Fixpoint py_percent (fmt : string) (args : list string) : option string :=
  match fmt with
  | "" => match args with [] => Some "" | _ => None end
  | String c rest =>
      if Ascii.eqb c "%" then
        match rest with
        | String d rest' =>
            if Ascii.eqb d "s" then
              match args with
              | a :: args' => (λ r, a +:+ r) <$> py_percent rest' args'
              | [] => None
              end
            else None
        | "" => None
        end
      else String c <$> py_percent rest args
  end.

Definition percent (fmt : string) (args : list string) : M string :=
  match py_percent fmt args with
  | Some s => ret s
  | None => raise TypeError
  end.

(** ** What the module is given

    Constants of [globals], the collaborators' queries and the outcome of
    everything the module cannot decide itself. *)
Record Externals : Type := {
  (** [BottlesRepositories.installers], [Paths.*] *)
  repo_installers : string;
  paths_temp : string;
  paths_applications : string;
  paths_bottles : string;
  (** [Runner().get_bottle_path] *)
  get_bottle_path : BottleConfig → string;
  (** [manager.supported_dependencies] *)
  supported_dependencies : dict;
  (** [manager.utils_conn.check_connection()] *)
  check_connection : bool;
  (** [urlopen(url)]: the body that [read()] returns, or what either raises *)
  urlopen : string → result (result string);
  (** [bytes.decode("utf-8")] and [yaml.safe_load] *)
  decode_utf8 : string → result string;
  yaml_safe_load : string → result value;
  (** [component_manager.download], which may depend on what happened before *)
  download : list event → string → value → value → value → value → bool;
  (** [os.environ] *)
  os_environ : gmap string string;
  (** whether the operating system lets a directory be made, a file be
      opened for writing, a chunk be appended to the given content *)
  makedirs_ok : string → bool;
  open_ok : string → bool;
  write_ok : string → string → string → bool;
  (** [repr] of a list or a dict *)
  py_repr : value → string
}.

Definition lift {A} (r : result A) : M A :=
  match r with
  | Ok a => ret a
  | Raise e => raise e
  end.

Section Installer.
Context (E : Externals).

(** [str(v)], which is what [%s] and an f-string print. *)
Definition py_str (v : value) : string :=
  match v with
  | VNone => "None"
  | VBool true => "True"
  | VBool false => "False"
  | VInt n => string_of_Z n
  | VStr s => s
  | VList _ | VDict _ => py_repr E v
  end.

(** *** Files *)

Definition os_path_exists (p : string) : M bool :=
  λ w, (Ok (is_there (fs w) p), w).

Definition os_path_isfile (p : string) : M bool :=
  λ w, (Ok (is_file (fs w) p), w).

(** The directories above [p]: every prefix of [p] that ends before a [/]. *)
Fixpoint ancestors (pre p : string) : list string :=
  match p with
  | "" => []
  | String c p' =>
      (if Ascii.eqb c "/" then (if String.eqb pre "" then [] else [pre]) else [])
      ++ ancestors (pre +:+ String c "") p'
  end.

Definition mkdir_missing (f : gmap string node) (p : string) : gmap string node :=
  match f !! p with
  | Some _ => f
  | None => <[p := Dir]> f
  end.

(** [os.makedirs(p)] *)
Definition os_makedirs (p : string) : M unit :=
  let* _ := emit (EMakedirs p) in
  λ w, match fs w !! p with
       | Some _ => (Raise FileExistsError, w)
       | None =>
           if makedirs_ok E p
           then (Ok tt, set_fs (<[p := Dir]> (foldl mkdir_missing (fs w) (ancestors "" p))) w)
           else (Raise OSError, w)
       end.

(** [open(p, "w")]: the file is there and empty from here on. *)
Definition open_w (p : string) : M unit :=
  let* _ := emit (EOpen p) in
  λ w, match fs w !! p with
       | Some Dir => (Raise IsADirectoryError, w)
       | _ => if open_ok E p
              then (Ok tt, set_fs (<[p := File ""]> (fs w)) w)
              else (Raise OSError, w)
       end.

(** [f.write(chunk)] on the file opened at [p] *)
Definition write (p chunk : string) : M unit :=
  let* _ := emit (EWrite p chunk) in
  λ w, match fs w !! p with
       | Some (File c) =>
           if write_ok E p c chunk
           then (Ok tt, set_fs (<[p := File (c +:+ chunk)]> (fs w)) w)
           else (Raise OSError, w)
       | _ => (Raise OSError, w)
       end.

(** [with open(p, "w") as f: body] *)
Definition with_open_w {A} (p : string) (body : M A) : M A :=
  let* _ := open_w p in
  finally body (emit (EClose p)).

(** [urllib.request.urlretrieve(url, p)] *)
Definition urlretrieve (url p : string) : M unit :=
  let* _ := emit (EUrlretrieve url p) in
  let* resp := lift (urlopen E url) in
  let* body := lift resp in
  with_open_w p (write p body).

(** *** [InstallerManager.get_installer] *)
Definition get_installer (installer_name installer_category : value)
    (plain : bool) : M value :=
  if check_connection E then
    try_except
      (let* url := percent "%s/%s/%s.yml"
                     [repo_installers E; py_str installer_category;
                      py_str installer_name] in
       let* _ := emit (EUrlopen url) in
       let* resp := lift (urlopen E url) in
       if plain then
         let* body := lift resp in
         let* text := lift (decode_utf8 E body) in
         ret (VStr text)
       else
         let* body := lift resp in
         lift (yaml_safe_load E body))
      (let* _ := emit (ELogError ("Cannot fetch manifest for "
                                  +:+ py_str installer_name +:+ ".")) in
       ret (VBool false))
  else ret (VBool false).

(** *** [InstallerManager.__download_icon] *)
Definition download_icon (configuration : BottleConfig)
    (executable manifest : value) : M unit :=
  let* mname := py_get manifest "Name" in
  let* icon := py_get executable "icon" in
  let* icon_url := percent "%s/data/%s/%s"
                     [repo_installers E; py_str mname; py_str icon] in
  let bottle_icons_path := get_bottle_path E configuration +:+ "/icons" in
  let* icon := py_get executable "icon" in
  let icon_path := bottle_icons_path +:+ "/" +:+ py_str icon in
  let* there := os_path_exists bottle_icons_path in
  let* _ := when (negb there) (os_makedirs bottle_icons_path) in
  let* isfile := os_path_isfile icon_path in
  when (negb isfile) (urlretrieve icon_url icon_path).

(** *** [InstallerManager.__install_dependencies] *)

(** [manager.supported_dependencies.get(dep)]: a list or a dict is not
    hashable, anything else that is not a string is no key of the catalog. *)
Definition catalog_get (dep : value) : M value :=
  match dep with
  | VStr s => ret (default VNone (dict_get (supported_dependencies E) s))
  | VList _ | VDict _ => raise TypeError
  | _ => ret VNone
  end.

Definition install_dependency (configuration : BottleConfig) (dep : value)
    : M unit :=
  if in_strs dep (Installed_Dependencies configuration) then ret tt
  else
    let* descriptor := catalog_get dep in
    emit (EAsyncInstallDependency configuration (VList [dep; descriptor])).

Definition install_dependencies (configuration : BottleConfig)
    (dependencies : value) : M unit :=
  let* deps := py_iter dependencies in
  for_each deps (install_dependency configuration).

(** *** [InstallerManager.__perform_steps] *)
Definition component_download (component : string)
    (url file_name rename checksum : value) : M bool :=
  λ w, (Ok (download E (trace w) component url file_name rename checksum),
        log (EDownload component url file_name rename checksum) w).

Definition perform_step (configuration : BottleConfig) (st : value) : M unit :=
  let* action := py_getitem st "action" in
  if in_strs action ["install_exe"; "install_msi"] then
    let* url := py_get st "url" in
    let* file_name := py_get st "file_name" in
    let* rename := py_get st "rename" in
    let* checksum := py_get st "file_checksum" in
    let* ok := component_download "installer" url file_name rename checksum in
    if ok then
      let* rename := py_get st "rename" in
      let* file := if truthy rename then py_get st "rename"
                   else py_get st "file_name" in
      let* arguments := py_get st "arguments" in
      let* environment := py_get st "environment" in
      emit (ERunExecutable configuration
              (paths_temp E +:+ "/" +:+ py_str file) arguments environment)
    else ret tt
  else ret tt.

Definition perform_steps (configuration : BottleConfig) (steps : value)
    : M unit :=
  let* sts := py_iter steps in
  for_each sts (perform_step configuration).

(** *** [InstallerManager.__set_parameters] *)

(** [configuration.get("Parameters")[k]] *)
Definition config_parameter (configuration : BottleConfig) (k : string)
    : M value :=
  match Parameters configuration !! k with
  | Some v => ret v
  | None => raise (KeyError k)
  end.

Definition update_parameter (configuration : BottleConfig)
    (parameters param : value) : M unit :=
  let* v := match param with
            | VStr k => py_getitem parameters k
            | _ => raise TypeError
            end in
  emit (EUpdateConfiguration configuration param v "Parameters").

Definition set_parameters (configuration : BottleConfig) (parameters : value)
    : M unit :=
  let* dxvk := py_get parameters "dxvk" in
  let* go := if truthy dxvk
             then let* cur := config_parameter configuration "dxvk" in
                  ret (negb (truthy cur))
             else ret false in
  let* _ := when go (emit (EInstallDxvk configuration)) in
  let* vkd3d := py_get parameters "vkd3d" in
  let* go := if truthy vkd3d
             then let* cur := config_parameter configuration "vkd3d" in
                  ret (truthy cur)
             else ret false in
  let* _ := when go (emit (EInstallVkd3d configuration)) in
  let* params := py_iter parameters in
  for_each params (update_parameter configuration parameters).

(** *** [InstallerManager.__set_executable_arguments] *)
Definition set_executable_arguments (configuration : BottleConfig)
    (executable : value) : M unit :=
  let* file := py_get executable "file" in
  let* arguments := py_get executable "arguments" in
  emit (EUpdateConfiguration configuration file arguments "Programs").

(** *** [InstallerManager.__create_desktop_entry] *)
Definition write_desktop_entry (configuration : BottleConfig)
    (manifest executable : value) (icon_path desktop_file : string) : M unit :=
  let* path := py_get executable "path" in
  let* file := py_get executable "file" in
  let* ex_path := percent "%s/%s/drive_c/%s/%s"
                    [paths_bottles E; Path configuration;
                     py_str path; py_str file] in
  let* _ := write desktop_file ("[Desktop Entry]" +:+ nl) in
  let* name := py_get executable "name" in
  let* _ := write desktop_file ("Name=" +:+ py_str name +:+ nl) in
  let* _ := write desktop_file
              ("Exec=bottles -e '" +:+ ex_path +:+ "' -b '"
               +:+ Name configuration +:+ "'" +:+ nl) in
  let* _ := write desktop_file ("Type=Application" +:+ nl) in
  let* _ := write desktop_file ("Terminal=false" +:+ nl) in
  let* _ := write desktop_file ("Categories=Application;" +:+ nl) in
  let* icon := py_get executable "icon" in
  let* _ := if truthy icon
            then write desktop_file ("Icon=" +:+ icon_path +:+ nl)
            else write desktop_file "Icon=com.usebottles.bottles" in
  let* description := py_get manifest "Description" in
  let* _ := write desktop_file ("Comment=" +:+ py_str description +:+ nl) in
  let* _ := write desktop_file ("Actions=Configure;" +:+ nl) in
  let* _ := write desktop_file ("[Desktop Action Configure]" +:+ nl) in
  let* _ := write desktop_file ("Name=Configure in Bottles" +:+ nl) in
  write desktop_file
    ("Exec=bottles -b '" +:+ Name configuration +:+ "'" +:+ nl).

Definition create_desktop_entry (configuration : BottleConfig)
    (manifest executable : value) : M unit :=
  let bottle_icons_path := get_bottle_path E configuration +:+ "/icons" in
  let* icon := py_get executable "icon" in
  let icon_path := bottle_icons_path +:+ "/" +:+ py_str icon in
  let* mname := py_get manifest "Name" in
  let* w := get_world in
  let* desktop_file := percent "%s/%s--%s--%s.desktop"
                         [paths_applications E; Name configuration;
                          py_str mname; now w] in
  if bool_decide (is_Some (os_environ E !! "FLATPAK_ID")) then ret tt
  else
    with_open_w desktop_file
      (write_desktop_entry configuration manifest executable
         icon_path desktop_file).

(** *** [InstallerManager.__async_install] *)
Definition async_install (configuration : BottleConfig) (installer : value)
    (widget : option nat) : M unit :=
  let* installer_name := py_getitem_int installer 0 in
  let* entry := py_getitem_int installer 1 in
  let* installer_category := py_getitem entry "Category" in
  let* manifest := get_installer installer_name installer_category false in
  let* dependencies := py_get manifest "Dependencies" in
  let* parameters := py_get manifest "Parameters" in
  let* executable := py_get manifest "Executable" in
  let* steps := py_get manifest "Steps" in
  let* icon := py_get executable "icon" in
  let* _ := when (truthy icon)
              (download_icon configuration executable manifest) in
  let* _ := when (truthy dependencies)
              (install_dependencies configuration dependencies) in
  let* _ := when (truthy steps) (perform_steps configuration steps) in
  let* _ := when (truthy parameters)
              (set_parameters configuration parameters) in
  let* arguments := py_get executable "arguments" in
  let* _ := when (truthy arguments)
              (set_executable_arguments configuration executable) in
  let* _ := create_desktop_entry configuration manifest executable in
  match widget with
  | Some wd => emit (EIdleAdd wd)
  | None => ret tt
  end.

End Installer.

(** ** Worlds that differ by new events only *)
Definition extend (w : World) (evs : list event) : World :=
  {| fs := fs w; trace := trace w ++ evs; now := now w |}.

(** The dependencies of [deps] that the configuration does not list yet, each
    with its catalog entry, as [__install_dependencies] hands them over. *)
Definition submission (E : Externals) (configuration : BottleConfig)
    (d : string) : event :=
  EAsyncInstallDependency configuration
    (VList [VStr d; default VNone (dict_get (supported_dependencies E) d)]).

Definition missing (configuration : BottleConfig) (deps : list string)
    : list string :=
  filter (λ d, d ∉ Installed_Dependencies configuration) deps.

(** The [update_configuration] calls that close [__set_parameters]: one per
    key of the parameter map, in the order of the map. *)
Definition parameter_update (configuration : BottleConfig) (parameters : dict)
    (k : string) : event :=
  EUpdateConfiguration configuration (VStr k)
    (default VNone (dict_get parameters k)) "Parameters".

Definition parameter_updates (configuration : BottleConfig)
    (parameters : dict) : list event :=
  parameter_update configuration parameters <$> dict_keys parameters.


(** A configuration and a world to run the methods on. *)
Definition games (dxvk vkd3d : bool) : BottleConfig :=
  {| Name := "Games";
     Path := "Games";
     Parameters := <["dxvk" := VBool dxvk]> (<["vkd3d" := VBool vkd3d]> ∅);
     Installed_Dependencies := ["dotnet48"];
     Programs := ∅ |}.

Definition fresh_world : World :=
  {| fs := ∅; trace := []; now := "1604433600.25" |}.

(** Where [get_installer] looks for a manifest, and what it leaves behind
    when the fetch fails. *)
Definition manifest_url (E : Externals) (installer_name installer_category : value)
    : string :=
  repo_installers E +:+ "/" +:+ py_str E installer_category +:+ "/"
  +:+ py_str E installer_name +:+ ".yml".

Definition fetch_failed (E : Externals) (installer_name installer_category : value)
    (w : World) : result value * World :=
  (Ok (VBool false),
   extend w [EUrlopen (manifest_url E installer_name installer_category);
             ELogError ("Cannot fetch manifest for "
                        +:+ py_str E installer_name +:+ ".")]).

(** Steps as [__perform_steps] reads them. *)
Definition field (st : value) (k : string) : value :=
  match st with
  | VDict d => default VNone (dict_get d k)
  | _ => VNone
  end.

(** A step that has an [action] entry, which [st["action"]] needs. *)
Definition has_action (st : value) : Prop :=
  ∃ d a, st = VDict d ∧ dict_get d "action" = Some a.

(** A step whose action is one of the two install actions. *)
Definition recognized (st : value) : bool :=
  in_strs (field st "action") ["install_exe"; "install_msi"].

Definition step_download (st : value) : event :=
  EDownload "installer" (field st "url") (field st "file_name")
    (field st "rename") (field st "file_checksum").

(** The outcome of the download of step [st] after the events [tr]. *)
Definition downloaded (E : Externals) (tr : list event) (st : value) : bool :=
  download E tr "installer" (field st "url") (field st "file_name")
    (field st "rename") (field st "file_checksum").

Definition step_launch (E : Externals) (configuration : BottleConfig)
    (st : value) : event :=
  ERunExecutable configuration
    (paths_temp E +:+ "/"
     +:+ py_str E (if truthy (field st "rename") then field st "rename"
                   else field st "file_name"))
    (field st "arguments") (field st "environment").

Definition is_download (e : event) : bool :=
  match e with EDownload _ _ _ _ _ => true | _ => false end.

Definition step_events (E : Externals) (configuration : BottleConfig)
    (tr : list event) (st : value) : list event :=
  if recognized st then
    step_download st
    :: (if downloaded E tr st then [step_launch E configuration st] else [])
  else [].

Fixpoint steps_events (E : Externals) (configuration : BottleConfig)
    (tr : list event) (steps : list value) : list event :=
  match steps with
  | [] => []
  | st :: rest =>
      step_events E configuration tr st
      ++ steps_events E configuration
           (tr ++ step_events E configuration tr st) rest
  end.

(** Where the icon of an executable is kept. *)
Definition icons_dir (E : Externals) (configuration : BottleConfig) : string :=
  get_bottle_path E configuration +:+ "/icons".

Definition icon_file (E : Externals) (configuration : BottleConfig)
    (executable : value) : string :=
  icons_dir E configuration +:+ "/" +:+ py_str E (field executable "icon").

Definition icon_url (E : Externals) (manifest executable : value) : string :=
  repo_installers E +:+ "/data/" +:+ py_str E (field manifest "Name")
  +:+ "/" +:+ py_str E (field executable "icon").

(** The events that go to the network. *)
Definition is_fetch (e : event) : bool :=
  match e with
  | EUrlopen _ | EUrlretrieve _ _ | EDownload _ _ _ _ _ => true
  | _ => false
  end.

(** The place of the desktop entry made at the time that prints as [ts]. *)
Definition desktop_file (E : Externals) (configuration : BottleConfig)
    (manifest : value) (ts : string) : string :=
  paths_applications E +:+ "/" +:+ Name configuration +:+ "--"
  +:+ py_str E (field manifest "Name") +:+ "--" +:+ ts +:+ ".desktop".

(** The path the entry launches and the text of the entry, chunk by chunk
    as [__create_desktop_entry] writes it. *)
Definition ex_path (E : Externals) (configuration : BottleConfig)
    (executable : value) : string :=
  paths_bottles E +:+ "/" +:+ Path configuration +:+ "/drive_c/"
  +:+ py_str E (field executable "path") +:+ "/"
  +:+ py_str E (field executable "file").

Definition entry_chunks (E : Externals) (configuration : BottleConfig)
    (manifest executable : value) : list string :=
  [ "[Desktop Entry]" +:+ nl;
    "Name=" +:+ py_str E (field executable "name") +:+ nl;
    "Exec=bottles -e '" +:+ ex_path E configuration executable +:+ "' -b '"
      +:+ Name configuration +:+ "'" +:+ nl;
    "Type=Application" +:+ nl;
    "Terminal=false" +:+ nl;
    "Categories=Application;" +:+ nl;
    (if truthy (field executable "icon")
     then "Icon=" +:+ icon_file E configuration executable +:+ nl
     else "Icon=com.usebottles.bottles");
    "Comment=" +:+ py_str E (field manifest "Description") +:+ nl;
    "Actions=Configure;" +:+ nl;
    "[Desktop Action Configure]" +:+ nl;
    "Name=Configure in Bottles" +:+ nl;
    "Exec=bottles -b '" +:+ Name configuration +:+ "'" +:+ nl ].

Definition join (l : list string) : string := foldr String.append "" l.

(** Of the chunks written one after the other to the file at [p] that
    holds [c]: those that get written, those that are tried, and whether
    all get written. *)
Fixpoint written (E : Externals) (p c : string) (chunks : list string)
    : list string :=
  match chunks with
  | [] => []
  | ch :: rest =>
      if write_ok E p c ch then ch :: written E p (c +:+ ch) rest else []
  end.

Fixpoint attempted (E : Externals) (p c : string) (chunks : list string)
    : list string :=
  match chunks with
  | [] => []
  | ch :: rest =>
      ch :: (if write_ok E p c ch then attempted E p (c +:+ ch) rest else [])
  end.

Fixpoint writes_ok (E : Externals) (p c : string) (chunks : list string)
    : bool :=
  match chunks with
  | [] => true
  | ch :: rest => write_ok E p c ch && writes_ok E p (c +:+ ch) rest
  end.

(** A host to run the methods on: every URL answers with a manifest that
    parses to [game_manifest], one mirror is down for the component
    manager, and the disk takes what [disk] accepts. *)
Definition game_executable : dict :=
  [("name", VStr "Game"); ("file", VStr "game.exe");
   ("path", VStr "Program Files/Game"); ("icon", VStr "game.png");
   ("arguments", VStr "-windowed")].

Definition broken_step : value :=
  VDict [("action", VStr "install_exe");
         ("url", VStr "https://mirror/broken.exe");
         ("file_name", VStr "broken.exe")].

Definition copy_step : value :=
  VDict [("action", VStr "copy_file"); ("file_name", VStr "readme.txt")].

Definition setup_step : value :=
  VDict [("action", VStr "install_msi");
         ("url", VStr "https://mirror/setup.msi");
         ("file_name", VStr "setup.msi"); ("rename", VStr "game.msi");
         ("arguments", VStr "/quiet")].

Definition game_manifest : dict :=
  [("Name", VStr "Game"); ("Description", VStr "A game");
   ("Dependencies", VList [VStr "dotnet48"; VStr "vcredist2019"]);
   ("Parameters", VDict [("dxvk", VBool true)]);
   ("Executable", VDict game_executable);
   ("Steps", VList [broken_step; copy_step; setup_step])].

Definition host (connected : bool) (environ : gmap string string)
    (disk : string → string → string → bool) : Externals :=
  {| repo_installers := "https://repo/installers";
     paths_temp := "/tmp";
     paths_applications := "/apps";
     paths_bottles := "/bottles";
     get_bottle_path := λ c, "/bottles/" +:+ Path c;
     supported_dependencies :=
       [("vcredist2019", VDict [("Description", VStr "runtime")])];
     check_connection := connected;
     urlopen := λ _, Ok (Ok "manifest");
     decode_utf8 := Ok;
     yaml_safe_load := λ _, Ok (VDict game_manifest);
     download := λ _ _ url _ _ _, negb (eq_str url "https://mirror/broken.exe");
     os_environ := environ;
     makedirs_ok := λ _, true;
     open_ok := λ _, true;
     write_ok := disk;
     py_repr := λ _, "..." |}.

Definition any_disk : string → string → string → bool := λ _ _ _, true.


Definition flatpak : gmap string string :=
  {["FLATPAK_ID" := "com.usebottles.bottles"]}.

Definition later_world : World :=
  {| fs := ∅; trace := []; now := "1604433700.5" |}.

Definition game_installer : value :=
  VList [VStr "game"; VDict [("Category", VStr "games")]].

(** A value that cannot be the key of a dict. *)
Definition unhashable (v : value) : bool :=
  match v with
  | VList _ | VDict _ => true
  | _ => false
  end.

(** What the steps leave in the trace when every download succeeds. *)
Definition launches (E : Externals) (configuration : BottleConfig)
    (steps : list value) : list event :=
  flat_map (λ st, [step_download st; step_launch E configuration st])
    (filter recognized steps).

(** The host [E] with a component manager whose downloads all succeed. *)
Definition reliable (E : Externals) : Externals :=
  {| repo_installers := repo_installers E;
     paths_temp := paths_temp E;
     paths_applications := paths_applications E;
     paths_bottles := paths_bottles E;
     get_bottle_path := get_bottle_path E;
     supported_dependencies := supported_dependencies E;
     check_connection := check_connection E;
     urlopen := urlopen E;
     decode_utf8 := decode_utf8 E;
     yaml_safe_load := yaml_safe_load E;
     download := λ _ _ _ _ _ _, true;
     os_environ := os_environ E;
     makedirs_ok := makedirs_ok E;
     open_ok := open_ok E;
     write_ok := write_ok E;
     py_repr := py_repr E |}.

(** An executable that declares no icon, and a world in which the icons
    directory of [games] is there. *)
Definition tool_executable : dict :=
  [("name", VStr "Tool"); ("file", VStr "tool.exe"); ("path", VStr "Tool")].

Definition tool_manifest : dict :=
  [("Name", VStr "Tool"); ("Description", VStr "A tool");
   ("Executable", VDict tool_executable)].

Definition icons_world : World :=
  {| fs := {["/bottles/Games/icons" := Dir]}; trace := [];
     now := "1604433600.25" |}.


(** The completion signal and the registration of the arguments of an
    executable, among the events. *)
Definition is_callback (e : event) : bool :=
  match e with EIdleAdd _ => true | _ => false end.

Definition is_registration (e : event) : bool :=
  match e with
  | EUpdateConfiguration _ _ _ scope => String.eqb scope "Programs"
  | _ => false
  end.

Definition quiet (e : event) : bool :=
  negb (is_callback e || is_registration e).

(** A registration that carries arguments, or any other event. *)
Definition registers_arguments (e : event) : bool :=
  match e with
  | EUpdateConfiguration _ _ v scope =>
      negb (String.eqb scope "Programs") || truthy v
  | _ => true
  end.

(** What [__async_install] sends to the widget at its end. *)
Definition signal (r : result unit) (widget : option nat) : list event :=
  match r, widget with
  | Ok _, Some wd => [EIdleAdd wd]
  | _, _ => []
  end.

(** [m] only adds events to the trace, and only events that [P] accepts. *)
Definition emits {A} (P : event → bool) (m : M A) : Prop :=
  ∀ w r w', m w = (r, w') →
    ∃ evs, trace w' = trace w ++ evs ∧ Forall (λ e, P e = true) evs.

(** [m] adds events that are no completion signal and then, at its very
    end and only when it returns, the signal to the widget. *)
Definition signals (widget : option nat) (m : M unit) : Prop :=
  ∀ w, ∃ evs,
    trace (m w).2 = trace w ++ evs ++ signal (m w).1 widget
    ∧ Forall (λ e, is_callback e = false) evs.

Definition is_dict (v : value) : bool :=
  match v with VDict _ => true | _ => false end.

(** The host [E] with a parser that makes [v] of every document, and the
    host [E] with the icon of the game missing from the repository. *)
Definition parsing (v : value) (E : Externals) : Externals :=
  {| repo_installers := repo_installers E;
     paths_temp := paths_temp E;
     paths_applications := paths_applications E;
     paths_bottles := paths_bottles E;
     get_bottle_path := get_bottle_path E;
     supported_dependencies := supported_dependencies E;
     check_connection := check_connection E;
     urlopen := urlopen E;
     decode_utf8 := decode_utf8 E;
     yaml_safe_load := λ _, Ok v;
     download := download E;
     os_environ := os_environ E;
     makedirs_ok := makedirs_ok E;
     open_ok := open_ok E;
     write_ok := write_ok E;
     py_repr := py_repr E |}.

Definition without_icon (E : Externals) : Externals :=
  {| repo_installers := repo_installers E;
     paths_temp := paths_temp E;
     paths_applications := paths_applications E;
     paths_bottles := paths_bottles E;
     get_bottle_path := get_bottle_path E;
     supported_dependencies := supported_dependencies E;
     check_connection := check_connection E;
     urlopen := λ url,
       if String.eqb url "https://repo/installers/data/Game/game.png"
       then Raise URLError else urlopen E url;
     decode_utf8 := decode_utf8 E;
     yaml_safe_load := yaml_safe_load E;
     download := download E;
     os_environ := os_environ E;
     makedirs_ok := makedirs_ok E;
     open_ok := open_ok E;
     write_ok := write_ok E;
     py_repr := py_repr E |}.


(** * Properties *)

(** Brings a world to its three fields. *)
Ltac world :=
  unfold log, set_fs, extend; cbn [fs trace now];
  rewrite <- ?app_assoc; cbn [app].

(** Splits on the first test of the goal that is on something atomic. *)
Ltac break_match :=
  match goal with
  | |- context [match ?x with _ => _ end] =>
      lazymatch x with
      | context [match _ with _ => _ end] => fail
      | _ => destruct x eqn:?
      end
  end.

(** Unfolds the plumbing of the monad. *)
Ltac monad :=
  cbv beta iota zeta
    delta [bind ret raise emit when lift get_world try_except finally].

Lemma extend_nil w : extend w [] = w.
Proof. destruct w; unfold extend; simpl. by rewrite app_nil_r. Qed.

Lemma extend_extend w a b : extend (extend w a) b = extend w (a ++ b).
Proof. unfold extend; simpl. by rewrite app_assoc. Qed.

Lemma log_extend e w : log e w = extend w [e].
Proof. reflexivity. Qed.

Lemma eqb_decide (a b : string) : String.eqb a b = bool_decide (a = b).
Proof.
  destruct (String.eqb_spec a b); symmetry;
    [by apply bool_decide_eq_true | by apply bool_decide_eq_false].
Qed.

Lemma in_strs_elem_of (d : string) (l : list string) :
  in_strs (VStr d) l = bool_decide (d ∈ l).
Proof.
  unfold in_strs. induction l as [|x l IH]; [done|].
  cbn [existsb eq_str]. rewrite IH, eqb_decide.
  destruct (decide (d = x)) as [->|Hne].
  - rewrite bool_decide_eq_true_2 by done. cbn. symmetry.
    apply bool_decide_eq_true. by left.
  - rewrite (bool_decide_eq_false_2 (d = x)) by done. cbn.
    apply bool_decide_ext. rewrite elem_of_cons. tauto.
Qed.

Lemma for_each_install_dependency E cfg (deps : list string) w :
  for_each (VStr <$> deps) (install_dependency E cfg) w
  = (Ok tt, extend w (submission E cfg <$> missing cfg deps)).
Proof.
  revert w. induction deps as [|d deps IH]; intros w; simpl.
  - unfold ret. by rewrite extend_nil.
  - unfold bind, install_dependency at 1. rewrite in_strs_elem_of.
    unfold missing. rewrite filter_cons.
    destruct (decide (d ∉ Installed_Dependencies cfg)) as [Hd|Hd].
    + rewrite bool_decide_eq_false_2 by done.
      unfold bind, catalog_get, ret, emit. rewrite log_extend, IH.
      by rewrite extend_extend.
    + rewrite bool_decide_eq_true_2 by (by apply dec_stable).
      unfold ret. by rewrite IH.
Qed.

(** C4.  Installing dependencies hands over to the manager's asynchronous
    install exactly the identifiers of the list that are not among the
    configuration's [Installed_Dependencies], in the order of the list, and
    returns; no identifier that is already installed is handed over. *)
Theorem install_dependencies_submits_missing
    (E : Externals) (cfg : BottleConfig) (deps : list string) (w : World) :
  install_dependencies E cfg (VList (VStr <$> deps)) w
  = (Ok tt, extend w (submission E cfg <$> missing cfg deps))
  ∧ (∀ d c descriptor,
       d ∈ Installed_Dependencies cfg →
       EAsyncInstallDependency c (VList [VStr d; descriptor])
       ∉ submission E cfg <$> missing cfg deps).
Proof.
  split.
  - unfold install_dependencies, bind, py_iter, ret.
    apply for_each_install_dependency.
  - intros d c descriptor Hd Hin.
    apply list_elem_of_fmap in Hin as (d' & Heq & Hd').
    unfold submission in Heq. injection Heq as _ <- _.
    unfold missing in Hd'. apply list_elem_of_filter in Hd' as [Hnot _].
    contradiction.
Qed.

(** ** Parameters *)

Lemma dict_get_keys (d : dict) (k : string) :
  k ∈ dict_keys d → is_Some (dict_get d k).
Proof.
  induction d as [|[k' v] d IH]; simpl.
  - by intros ?%not_elem_of_nil.
  - intros Hk. destruct (String.eqb_spec k' k); [by eexists|].
    apply IH. apply elem_of_cons in Hk as [->|Hk]; [done|exact Hk].
Qed.


Lemma for_each_update_parameter cfg (d : dict) (ks : list string) w :
  (∀ k, k ∈ ks → is_Some (dict_get d k)) →
  for_each (VStr <$> ks) (update_parameter cfg (VDict d)) w
  = (Ok tt, extend w (parameter_update cfg d <$> ks)).
Proof.
  revert w. induction ks as [|k ks IH]; intros w Hks; simpl.
  - unfold ret. by rewrite extend_nil.
  - destruct (Hks k) as [v Hv]; [by left|].
    unfold bind, update_parameter at 1, py_getitem, bind, ret, emit.
    rewrite Hv. rewrite log_extend, IH by (intros; apply Hks; by right).
    rewrite extend_extend. unfold parameter_update at 2. by rewrite Hv.
Qed.




(** C1.  What the code does on the transition the claim is about: with
    [vkd3d] asked for and disabled in the configuration, the vkd3d install
    routine is not called, only the value is written; with [vkd3d] enabled
    already, the install routine is called. *)
Theorem set_parameters_vkd3d_inverted :
  set_parameters (games false false) (VDict [("vkd3d", VBool true)])
    fresh_world
  = (Ok tt,
     extend fresh_world
       [EUpdateConfiguration (games false false) (VStr "vkd3d") (VBool true)
          "Parameters"])
  ∧ set_parameters (games false true) (VDict [("vkd3d", VBool true)])
      fresh_world
    = (Ok tt,
       extend fresh_world
         [EInstallVkd3d (games false true);
          EUpdateConfiguration (games false true) (VStr "vkd3d") (VBool true)
            "Parameters"]).
Proof. split; vm_compute; reflexivity. Qed.

(** ** Fetching a manifest *)

Lemma get_installer_connected E name cat plain w :
  check_connection E = true →
  get_installer E name cat plain w
  = match urlopen E (manifest_url E name cat) with
    | Ok (Ok body) =>
        match (if plain
               then match decode_utf8 E body with
                    | Ok text => Ok (VStr text)
                    | Raise e => Raise e
                    end
               else yaml_safe_load E body) with
        | Ok v => (Ok v, extend w [EUrlopen (manifest_url E name cat)])
        | Raise _ => fetch_failed E name cat w
        end
    | _ => fetch_failed E name cat w
    end.
Proof.
  intros Hc. unfold get_installer, fetch_failed. rewrite Hc.
  change (percent _ _) with (ret (A := string) (manifest_url E name cat)).
  monad.
  destruct (urlopen E (manifest_url E name cat)) as [[body|e]|e], plain;
    simpl; rewrite ?log_extend, ?extend_extend; try reflexivity.
  - destruct (decode_utf8 E body); simpl;
      by rewrite ?log_extend, ?extend_extend.
  - destruct (yaml_safe_load E body); simpl;
      by rewrite ?log_extend, ?extend_extend.
Qed.

(** C3.  Fetching a manifest never raises.  Without connectivity it returns
    [False] at once, leaving the world as it was; with connectivity, when
    opening the URL, reading the response, decoding it or parsing it raises,
    it returns [False] after one logged error. *)
Theorem get_installer_never_raises
    (E : Externals) (name cat : value) (plain : bool) (w : World) :
  (∃ v w', get_installer E name cat plain w = (Ok v, w'))
  ∧ (check_connection E = false →
     get_installer E name cat plain w = (Ok (VBool false), w))
  ∧ (check_connection E = true →
     (∀ e, urlopen E (manifest_url E name cat) = Raise e →
        get_installer E name cat plain w = fetch_failed E name cat w)
     ∧ (∀ e, urlopen E (manifest_url E name cat) = Ok (Raise e) →
        get_installer E name cat plain w = fetch_failed E name cat w)
     ∧ (∀ body e,
        urlopen E (manifest_url E name cat) = Ok (Ok body) →
        plain = true → decode_utf8 E body = Raise e →
        get_installer E name cat plain w = fetch_failed E name cat w)
     ∧ (∀ body e,
        urlopen E (manifest_url E name cat) = Ok (Ok body) →
        plain = false → yaml_safe_load E body = Raise e →
        get_installer E name cat plain w = fetch_failed E name cat w)).
Proof.
  split; [|split].
  - destruct (check_connection E) eqn:Hc.
    + rewrite get_installer_connected by done. unfold fetch_failed.
      destruct (urlopen E _) as [[body|e]|e]; [|by eauto..].
      destruct plain;
        [destruct (decode_utf8 E body)|destruct (yaml_safe_load E body)];
        by eauto.
    + unfold get_installer. rewrite Hc. by eauto.
  - intros Hc. unfold get_installer. by rewrite Hc.
  - intros Hc. rewrite get_installer_connected by done.
    repeat split.
    + by intros e ->.
    + by intros e ->.
    + by intros body e -> -> ->.
    + by intros body e -> -> ->.
Qed.

(** ** Steps *)

Lemma for_each_app {A} (l1 l2 : list A) (body : A → M unit) w :
  for_each (l1 ++ l2) body w
  = match for_each l1 body w with
    | (Ok _, w') => for_each l2 body w'
    | (Raise e, w') => (Raise e, w')
    end.
Proof.
  revert w. induction l1 as [|x l1 IH]; intros w; simpl; [done|].
  unfold bind. destruct (body x w) as [[[]|e] w']; [apply IH|done].
Qed.

Lemma perform_step_events E cfg st w :
  has_action st →
  perform_step E cfg st w = (Ok tt, extend w (step_events E cfg (trace w) st)).
Proof.
  intros (d & a & -> & Ha).
  unfold perform_step, step_events, recognized, downloaded, step_launch,
    step_download, field, py_getitem, py_get, component_download.
  rewrite Ha. change (default VNone (Some a)) with a. monad.
  destruct (in_strs a ["install_exe"; "install_msi"]);
    [|by rewrite extend_nil].
  cbn [trace log].
  destruct (download E (trace w) _ _ _ _ _).
  - destruct (truthy (default VNone (dict_get d "rename")));
      by rewrite !log_extend, extend_extend.
  - by rewrite log_extend.
Qed.

Lemma for_each_perform_step E cfg steps w :
  Forall has_action steps →
  for_each steps (perform_step E cfg) w
  = (Ok tt, extend w (steps_events E cfg (trace w) steps)).
Proof.
  intros Hs. revert w.
  induction Hs as [|st steps Hst _ IH]; intros w; simpl.
  - unfold ret. by rewrite extend_nil.
  - unfold bind. rewrite perform_step_events by done.
    by rewrite IH, extend_extend.
Qed.

Lemma downloads_of_steps E cfg tr steps :
  filter is_download (steps_events E cfg tr steps)
  = step_download <$> filter recognized steps.
Proof.
  revert tr. induction steps as [|st steps IH]; intros tr; [done|].
  cbn [steps_events]. rewrite filter_app, IH, (filter_cons _ st).
  unfold step_events.
  destruct (recognized st), (downloaded E tr st); done.
Qed.

(** C5.  The steps are gone through in the order of the list, whatever
    their downloads do: the downloads asked for are those of the steps with
    an install action, in order, and the call returns.  A step whose
    download fails is left without a launch and the steps after it are
    performed as they would be on their own; a step whose download succeeds
    is launched before the steps after it. *)
Theorem perform_steps_isolates_failures
    (E : Externals) (cfg : BottleConfig) (steps : list value) (w : World) :
  Forall has_action steps →
  ∃ evs,
    perform_steps E cfg (VList steps) w = (Ok tt, extend w evs)
    ∧ filter is_download evs = step_download <$> filter recognized steps
    ∧ ∀ pre st post,
        steps = pre ++ st :: post →
        recognized st = true →
        ∃ before,
          perform_steps E cfg (VList pre) w = (Ok tt, extend w before)
          ∧ perform_steps E cfg (VList steps) w
            = perform_steps E cfg (VList post)
                (extend w
                   (before ++ step_download st
                    :: (if downloaded E (trace w ++ before) st
                        then [step_launch E cfg st] else []))).
Proof.
  intros Hs. exists (steps_events E cfg (trace w) steps).
  split; [|split].
  - unfold perform_steps, py_iter. monad. by apply for_each_perform_step.
  - apply downloads_of_steps.
  - intros pre st post -> Hrec.
    apply Forall_app in Hs as [Hpre Hpost].
    apply Forall_cons in Hpost as [Hst Hpost].
    exists (steps_events E cfg (trace w) pre).
    unfold perform_steps, py_iter. monad.
    rewrite for_each_perform_step by done. split; [done|].
    rewrite for_each_app, for_each_perform_step by done.
    simpl. unfold bind. rewrite perform_step_events by done.
    rewrite extend_extend. unfold step_events. rewrite Hrec. done.
Qed.

(** ** Icons *)

Lemma append_cons c s t : String c s +:+ t = String c (s +:+ t).
Proof. reflexivity. Qed.

Lemma length_append s t :
  String.length (s +:+ t) = String.length s + String.length t.
Proof.
  induction s as [|c s IH]; [done|].
  rewrite append_cons. simpl. by rewrite IH.
Qed.

Lemma append_neq s c t : s ≠ s +:+ String c t.
Proof.
  intros H. apply (f_equal String.length) in H.
  rewrite length_append in H. simpl in H. lia.
Qed.

Lemma lookup_mkdir_missing (f : gmap string node) (ps : list string) q n :
  f !! q = Some n → foldl mkdir_missing f ps !! q = Some n.
Proof.
  revert f. induction ps as [|p ps IH]; intros f Hq; [done|].
  simpl. apply IH. unfold mkdir_missing.
  destruct (f !! p) eqn:Hp; [done|].
  rewrite lookup_insert_ne; [done|]. intros ->. congruence.
Qed.

(** What [urlretrieve] can touch: the file it is asked to write. *)
Lemma urlretrieve_frame E url p w :
  ∃ r evs f,
    urlretrieve E url p w
    = (r, {| fs := f; trace := trace w ++ EUrlretrieve url p :: evs;
             now := now w |})
    ∧ (∀ q, q ≠ p → f !! q = fs w !! q)
    ∧ (r = Ok tt → ∃ c, f !! p = Some (File c)).
Proof.
  unfold urlretrieve, with_open_w, open_w, write. monad. world.
  repeat (rewrite ?lookup_insert_eq; break_match; world);
    (eexists _, _, _; split; [reflexivity|]; split;
     [intros q Hq; by rewrite ?lookup_insert_ne
     |intros; simplify_eq; rewrite ?lookup_insert_eq; by eauto]).
Qed.

Lemma icons_dir_neq_icon_file E cfg executable :
  icon_file E cfg executable ≠ icons_dir E cfg.
Proof. unfold icon_file. intros H. symmetry in H. by apply append_neq in H. Qed.

Lemma is_file_makedirs E cfg executable (f : gmap string node) ps :
  is_file f (icon_file E cfg executable) = true →
  is_file (<[icons_dir E cfg := Dir]> (foldl mkdir_missing f ps))
    (icon_file E cfg executable) = true.
Proof.
  unfold is_file. intros H.
  rewrite lookup_insert_ne by (symmetry; apply icons_dir_neq_icon_file).
  destruct (f !! icon_file E cfg executable) as [[|c]|] eqn:Hf; [done| |done].
  by rewrite (lookup_mkdir_missing _ _ _ _ Hf).
Qed.

Lemma append_empty_r s : s +:+ "" = s.
Proof. induction s as [|c s IH]; [done|]. by rewrite append_cons, IH. Qed.

Lemma download_icon_unfold E cfg (manifest executable : dict) w :
  download_icon E cfg (VDict executable) (VDict manifest) w
  = (let* there := os_path_exists (icons_dir E cfg) in
     let* _ := when (negb there) (os_makedirs E (icons_dir E cfg)) in
     let* isfile := os_path_isfile (icon_file E cfg (VDict executable)) in
     when (negb isfile)
       (urlretrieve E (icon_url E (VDict manifest) (VDict executable))
          (icon_file E cfg (VDict executable)))) w.
Proof.
  unfold download_icon, icon_url, percent, py_get. monad.
  cbn [py_percent Ascii.eqb Bool.eqb fmap option_fmap option_map].
  by rewrite append_empty_r.
Qed.

Lemma is_there_None (f : gmap string node) p :
  is_there f p = false → f !! p = None.
Proof. unfold is_there. by destruct (f !! p). Qed.

Lemma world_eta w : {| fs := fs w; trace := trace w; now := now w |} = w.
Proof. by destruct w. Qed.

(** C6.  When a file is already at the place of the icon, fetching the icon
    does not go to the network; when the icons directory of the environment
    is missing, making it is the first thing done, before any download; and
    a fetch that returns leaves a file at the place of the icon, so that the
    next one finds it. *)
Theorem download_icon_fetches_once
    (E : Externals) (cfg : BottleConfig) (manifest executable : dict)
    (w : World) :
  (is_file (fs w) (icon_file E cfg (VDict executable)) = true →
   ∃ r evs f,
     download_icon E cfg (VDict executable) (VDict manifest) w
     = (r, {| fs := f; trace := trace w ++ evs; now := now w |})
     ∧ filter is_fetch evs = []
     ∧ (is_there (fs w) (icons_dir E cfg) = true →
        r = Ok tt ∧ evs = [] ∧ f = fs w))
  ∧ (is_there (fs w) (icons_dir E cfg) = false →
     ∃ r evs f,
       download_icon E cfg (VDict executable) (VDict manifest) w
       = (r, {| fs := f;
                trace := trace w ++ EMakedirs (icons_dir E cfg) :: evs;
                now := now w |})
       ∧ (makedirs_ok E (icons_dir E cfg) = true →
          f !! icons_dir E cfg = Some Dir)
       ∧ (makedirs_ok E (icons_dir E cfg) = false →
          r = Raise OSError ∧ evs = [] ∧ f = fs w))
  ∧ (∀ w',
       download_icon E cfg (VDict executable) (VDict manifest) w = (Ok tt, w') →
       is_file (fs w') (icon_file E cfg (VDict executable)) = true).
Proof.
  rewrite download_icon_unfold.
  unfold os_path_exists, os_path_isfile, os_makedirs. monad.
  split; [|split].
  - intros Hfile. destruct (is_there (fs w) (icons_dir E cfg)) eqn:Hthere.
    + cbn [negb]. rewrite Hfile. cbn [negb].
      exists (Ok tt), [], (fs w). by rewrite app_nil_r, world_eta.
    + cbn [negb]. world. rewrite (is_there_None _ _ Hthere).
      destruct (makedirs_ok E (icons_dir E cfg)); world.
      * rewrite is_file_makedirs by done. cbn [negb].
        by eexists (Ok tt), [_], _.
      * by eexists (Raise OSError), [_], _.
  - intros Hthere. rewrite Hthere. cbn [negb]. world.
    rewrite (is_there_None _ _ Hthere).
    destruct (makedirs_ok E (icons_dir E cfg)) eqn:Hmk; world.
    + match goal with
      | |- context [is_file ?f ?p] => destruct (is_file f p) eqn:Hfile
      end; cbn [negb].
      * eexists (Ok tt), [], _. split; [done|]. split; [|done].
        intros _. by rewrite lookup_insert_eq.
      * match goal with
        | |- context [urlretrieve E ?u ?p ?w0] =>
            destruct (urlretrieve_frame E u p w0) as (r & evs & f & -> & Hf & _)
        end.
        world. eexists r, (_ :: evs), f. split; [done|]. split; [|done].
        intros _. rewrite Hf by (symmetry; apply icons_dir_neq_icon_file).
        cbn [fs]. by rewrite lookup_insert_eq.
    + by eexists (Raise OSError), [], _.
  - intros w'.
    destruct (is_there (fs w) (icons_dir E cfg)) eqn:Hthere; cbn [negb].
    + destruct (is_file (fs w) _) eqn:Hfile; cbn [negb].
      * by intros [= <-].
      * match goal with
        | |- context [urlretrieve E ?u ?p ?w0] =>
            destruct (urlretrieve_frame E u p w0) as (r & evs & f & -> & _ & Hok)
        end.
        intros [= -> <-]. destruct Hok as [c Hc]; [done|].
        unfold is_file. cbn [fs]. by rewrite Hc.
    + world. rewrite (is_there_None _ _ Hthere).
      destruct (makedirs_ok E (icons_dir E cfg)); world; [|done].
      match goal with
      | |- context [is_file ?f ?p] => destruct (is_file f p) eqn:Hfile
      end; cbn [negb].
      * by intros [= <-].
      * match goal with
        | |- context [urlretrieve E ?u ?p ?w0] =>
            destruct (urlretrieve_frame E u p w0) as (r & evs & f & -> & _ & Hok)
        end.
        intros [= -> <-]. destruct Hok as [c Hc]; [done|].
        unfold is_file. cbn [fs]. by rewrite Hc.
Qed.

(** ** Desktop entries *)

Lemma create_desktop_entry_unfold E cfg (manifest executable : dict) w :
  create_desktop_entry E cfg (VDict manifest) (VDict executable) w
  = (if bool_decide (is_Some (os_environ E !! "FLATPAK_ID")) then ret tt
     else with_open_w E (desktop_file E cfg (VDict manifest) (now w))
            (write_desktop_entry E cfg (VDict manifest) (VDict executable)
               (icon_file E cfg (VDict executable))
               (desktop_file E cfg (VDict manifest) (now w)))) w.
Proof. reflexivity. Qed.

(** C8.  With [FLATPAK_ID] in the environment of the process, making a
    desktop entry returns without an error and leaves the world as it was:
    no file is opened, none is written. *)
Theorem create_desktop_entry_sandboxed
    (E : Externals) (cfg : BottleConfig) (manifest executable : dict)
    (w : World) :
  is_Some (os_environ E !! "FLATPAK_ID") →
  create_desktop_entry E cfg (VDict manifest) (VDict executable) w = (Ok tt, w).
Proof.
  intros Hflatpak. rewrite create_desktop_entry_unfold.
  by rewrite bool_decide_eq_true_2.
Qed.

Lemma append_inj_r s1 s2 t : s1 +:+ t = s2 +:+ t → s1 = s2.
Proof.
  revert s2. induction s1 as [|c s1 IH]; intros [|d s2] H.
  - done.
  - apply (f_equal String.length) in H.
    rewrite !length_append in H. simpl in H. lia.
  - apply (f_equal String.length) in H.
    rewrite !length_append in H. simpl in H. lia.
  - rewrite !append_cons in H. injection H as -> H. f_equal. by apply IH.
Qed.

Lemma desktop_file_inj E cfg manifest ts1 ts2 :
  desktop_file E cfg manifest ts1 = desktop_file E cfg manifest ts2 →
  ts1 = ts2.
Proof.
  unfold desktop_file. intros H.
  repeat apply (inj (String.app _)) in H.
  by apply append_inj_r in H.
Qed.

Lemma bind_congr {A B} (m : M A) (k1 k2 : A → M B) w :
  (∀ a w', k1 a w' = k2 a w') → bind m k1 w = bind m k2 w.
Proof. intros H. unfold bind. destruct (m w) as [[a|e] w']; [apply H|done]. Qed.

Lemma bind_ret_l {A B} (a : A) (k : A → M B) w : bind (ret a) k w = k a w.
Proof. reflexivity. Qed.

Lemma bind_ret_r (m : M unit) w : m w = bind m (λ _, ret tt) w.
Proof. unfold bind, ret. by destruct (m w) as [[[]|e] w']. Qed.

Lemma write_desktop_entry_chunks E cfg (manifest executable : dict) p w :
  write_desktop_entry E cfg (VDict manifest) (VDict executable)
    (icon_file E cfg (VDict executable)) p w
  = for_each (entry_chunks E cfg (VDict manifest) (VDict executable))
      (write E p) w.
Proof.
  unfold write_desktop_entry, entry_chunks, ex_path, icon_file, percent,
    py_get, field.
  cbn [py_percent Ascii.eqb Bool.eqb fmap option_fmap option_map for_each].
  repeat first
    [ rewrite bind_ret_l; cbv beta; rewrite ?append_empty_r
    | apply bind_congr; intros ].
  destruct (truthy (default VNone (dict_get executable "icon")));
    repeat first
      [ rewrite bind_ret_l; cbv beta
      | apply bind_congr; intros ];
    apply bind_ret_r.
Qed.


Lemma writes_ok_written E p c chunks :
  writes_ok E p c chunks = true ↔ written E p c chunks = chunks.
Proof.
  revert c. induction chunks as [|ch rest IH]; intros c; simpl; [done|].
  destruct (write_ok E p c ch); simpl; [|done].
  rewrite IH. split; [by intros ->|by intros [= ->]].
Qed.

Lemma append_assoc s1 s2 s3 : (s1 +:+ s2) +:+ s3 = s1 +:+ s2 +:+ s3.
Proof. induction s1 as [|c s1 IH]; [done|]. by rewrite !append_cons, IH. Qed.

(** Writing chunks to an open file: each chunk that the system accepts is
    appended, the first that it refuses stops the loop with [OSError]. *)
Lemma for_each_write E p chunks c w :
  fs w !! p = Some (File c) →
  for_each chunks (write E p) w
  = (if writes_ok E p c chunks then Ok tt else Raise OSError,
     {| fs := <[p := File (c +:+ join (written E p c chunks))]> (fs w);
        trace := trace w ++ (EWrite p <$> attempted E p c chunks);
        now := now w |}).
Proof.
  revert c w. induction chunks as [|ch rest IH]; intros c w Hc; simpl.
  - unfold ret. rewrite append_empty_r, app_nil_r, insert_id by done.
    by rewrite world_eta.
  - unfold bind, write at 1. monad. world. rewrite Hc.
    destruct (write_ok E p c ch); world.
    + rewrite (IH (c +:+ ch)) by (cbn [fs]; by rewrite lookup_insert_eq).
      world. by rewrite insert_insert_eq, append_assoc.
    + by rewrite append_empty_r, insert_id.
Qed.

Lemma create_desktop_entry_run E cfg (manifest executable : dict) w :
  os_environ E !! "FLATPAK_ID" = None →
  create_desktop_entry E cfg (VDict manifest) (VDict executable) w
  = with_open_w E (desktop_file E cfg (VDict manifest) (now w))
      (for_each (entry_chunks E cfg (VDict manifest) (VDict executable))
         (write E (desktop_file E cfg (VDict manifest) (now w)))) w.
Proof.
  intros Hflatpak. rewrite create_desktop_entry_unfold, Hflatpak.
  rewrite bool_decide_eq_false_2 by (by intros [? ?]).
  unfold with_open_w, finally, bind.
  destruct (open_w E _ w) as [[[]|e] w1]; [|done].
  by rewrite write_desktop_entry_chunks.
Qed.

Lemma create_desktop_entry_written
    (E : Externals) (cfg : BottleConfig) (manifest executable : dict)
    (w : World) :
  os_environ E !! "FLATPAK_ID" = None →
  fs w !! desktop_file E cfg (VDict manifest) (now w) ≠ Some Dir →
  open_ok E (desktop_file E cfg (VDict manifest) (now w)) = true →
  create_desktop_entry E cfg (VDict manifest) (VDict executable) w
  = (if writes_ok E (desktop_file E cfg (VDict manifest) (now w)) ""
          (entry_chunks E cfg (VDict manifest) (VDict executable))
     then Ok tt else Raise OSError,
     {| fs := <[desktop_file E cfg (VDict manifest) (now w) :=
                  File (join (written E
                                (desktop_file E cfg (VDict manifest) (now w)) ""
                                (entry_chunks E cfg (VDict manifest)
                                   (VDict executable))))]> (fs w);
        trace := trace w
                 ++ EOpen (desktop_file E cfg (VDict manifest) (now w))
                    :: (EWrite (desktop_file E cfg (VDict manifest) (now w))
                        <$> attempted E
                              (desktop_file E cfg (VDict manifest) (now w)) ""
                              (entry_chunks E cfg (VDict manifest)
                                 (VDict executable)))
                    ++ [EClose (desktop_file E cfg (VDict manifest) (now w))];
        now := now w |}).
Proof.
  intros Hflatpak Hdir Hopen.
  rewrite create_desktop_entry_run by done.
  unfold with_open_w, open_w, finally. monad. world. rewrite Hopen.
  set (p := desktop_file E cfg (VDict manifest) (now w)) in *.
  assert (Hrun : ∀ w0, fs w0 = fs w →
    for_each (entry_chunks E cfg (VDict manifest) (VDict executable))
      (write E p) (set_fs (<[p := File ""]> (fs w0)) w0)
    = (if writes_ok E p "" (entry_chunks E cfg (VDict manifest)
                              (VDict executable))
       then Ok tt else Raise OSError,
       {| fs := <[p := File (join (written E p ""
                   (entry_chunks E cfg (VDict manifest)
                      (VDict executable))))]> (fs w);
          trace := trace w0
                   ++ (EWrite p <$> attempted E p ""
                         (entry_chunks E cfg (VDict manifest)
                            (VDict executable)));
          now := now w0 |})).
  { intros w0 Hw0.
    rewrite (for_each_write E p _ "")
      by (unfold set_fs; cbn [fs]; by rewrite lookup_insert_eq).
    unfold set_fs. cbn [fs trace now].
    by rewrite insert_insert_eq, Hw0. }
  destruct (fs w !! p) as [[|c0]|] eqn:Hp; [done|..];
    (unfold set_fs in Hrun;
     specialize (Hrun {| fs := fs w; trace := trace w ++ [EOpen p];
                         now := now w |} eq_refl);
     cbn [fs trace now] in Hrun; rewrite Hrun;
     destruct (writes_ok E p "" _); world; reflexivity).
Qed.


Lemma create_desktop_entry_opens E cfg (manifest executable : dict) w :
  os_environ E !! "FLATPAK_ID" = None →
  ∃ r evs f,
    create_desktop_entry E cfg (VDict manifest) (VDict executable) w
    = (r, {| fs := f;
             trace := trace w
                      ++ EOpen (desktop_file E cfg (VDict manifest) (now w))
                         :: evs;
             now := now w |}).
Proof.
  intros Hflatpak.
  assert (Hdir : fs w !! desktop_file E cfg (VDict manifest) (now w) = Some Dir
                 ∨ fs w !! desktop_file E cfg (VDict manifest) (now w)
                   ≠ Some Dir)
    by (destruct (fs w !! _) as [[|c]|]; by eauto).
  destruct Hdir as [Hdir|Hdir];
    [|destruct (open_ok E (desktop_file E cfg (VDict manifest) (now w)))
        eqn:Hopen].
  - rewrite create_desktop_entry_run by done.
    unfold with_open_w, open_w. monad. world. rewrite Hdir.
    by eexists _, [], _.
  - rewrite create_desktop_entry_written by done. by eauto.
  - rewrite create_desktop_entry_run by done.
    unfold with_open_w, open_w. monad. world. rewrite Hopen.
    destruct (fs w !! _) as [[|c]|]; by eexists _, [], _.
Qed.

(** C9.  The entry is made at
    [{applications}/{environment}--{manifest}--{timestamp}.desktop]; two
    installations of manifests of the same name into one environment, at
    times that print differently, open two different files. *)
Theorem desktop_files_do_not_collide
    (E : Externals) (cfg : BottleConfig)
    (manifest1 manifest2 executable1 executable2 : dict) (w1 w2 : World) :
  os_environ E !! "FLATPAK_ID" = None →
  field (VDict manifest1) "Name" = field (VDict manifest2) "Name" →
  now w1 ≠ now w2 →
  desktop_file E cfg (VDict manifest1) (now w1)
  = paths_applications E +:+ "/" +:+ Name cfg +:+ "--"
    +:+ py_str E (field (VDict manifest1) "Name") +:+ "--" +:+ now w1
    +:+ ".desktop"
  ∧ desktop_file E cfg (VDict manifest1) (now w1)
    ≠ desktop_file E cfg (VDict manifest2) (now w2)
  ∧ (∃ r evs f,
       create_desktop_entry E cfg (VDict manifest1) (VDict executable1) w1
       = (r, {| fs := f;
                trace := trace w1
                         ++ EOpen (desktop_file E cfg (VDict manifest1) (now w1))
                            :: evs;
                now := now w1 |}))
  ∧ (∃ r evs f,
       create_desktop_entry E cfg (VDict manifest2) (VDict executable2) w2
       = (r, {| fs := f;
                trace := trace w2
                         ++ EOpen (desktop_file E cfg (VDict manifest2) (now w2))
                            :: evs;
                now := now w2 |})).
Proof.
  intros Hflatpak Hname Hnow. split; [done|]. split; [|split].
  - intros Heq. apply Hnow.
    apply (desktop_file_inj E cfg (VDict manifest1)).
    rewrite Heq. unfold desktop_file. by rewrite Hname.
  - by apply create_desktop_entry_opens.
  - by apply create_desktop_entry_opens.
Qed.

(** ** The whole installation *)

Lemma get_installer_false_world E name cat plain w w' :
  get_installer E name cat plain w = (Ok (VBool false), w') →
  ∃ evs, w' = extend w evs
         ∧ Forall (λ e, ∃ s, e = EUrlopen s ∨ e = ELogError s) evs.
Proof.
  destruct (check_connection E) eqn:Hc.
  - rewrite get_installer_connected by done. unfold fetch_failed.
    repeat break_match; intros H; simplify_eq;
      eexists; (split; [reflexivity|]); repeat constructor; by eauto.
  - unfold get_installer. rewrite Hc. intros [= <-].
    exists []. by rewrite extend_nil.
Qed.

(** C10.  When the fetch of the manifest gives [False], the body of the
    installation raises on [manifest.get], its first use of the manifest,
    in the world the fetch left: nothing was done but the fetch itself, no
    icon, no dependency, no step, no parameter, no entry, no callback. *)
Theorem async_install_without_manifest
    (E : Externals) (cfg : BottleConfig) (name category : value)
    (entry : dict) (rest : list value) (widget : option nat) (w w' : World) :
  dict_get entry "Category" = Some category →
  get_installer E name category false w = (Ok (VBool false), w') →
  async_install E cfg (VList (name :: VDict entry :: rest)) widget w
  = (Raise AttributeError, w')
  ∧ ∃ evs, w' = extend w evs
           ∧ Forall (λ e, ∃ s, e = EUrlopen s ∨ e = ELogError s) evs.
Proof.
  intros Hcat Hfetch. split; [|by eapply get_installer_false_world].
  unfold async_install.
  change (py_getitem_int (VList (name :: VDict entry :: rest)) 0)
    with (ret name).
  change (py_getitem_int (VList (name :: VDict entry :: rest)) 1)
    with (ret (VDict entry)).
  rewrite !bind_ret_l. unfold py_getitem. rewrite Hcat, bind_ret_l.
  unfold bind at 1. by rewrite Hfetch.
Qed.

(** ** The properties on the game of the examples *)

Example perform_steps_game :
  perform_steps (host true ∅ any_disk) (games false false)
    (VList [broken_step; copy_step; setup_step]) fresh_world
  = (Ok tt,
     extend fresh_world
       [EDownload "installer" (VStr "https://mirror/broken.exe")
          (VStr "broken.exe") VNone VNone;
        EDownload "installer" (VStr "https://mirror/setup.msi")
          (VStr "setup.msi") (VStr "game.msi") VNone;
        ERunExecutable (games false false) "/tmp/game.msi" (VStr "/quiet")
          VNone]).
Proof. vm_compute. reflexivity. Qed.

Lemma perform_steps_isolates_failures_witness :
  Forall has_action [broken_step; copy_step; setup_step]
  ∧ ∃ evs,
      perform_steps (host true ∅ any_disk) (games false false)
        (VList [broken_step; copy_step; setup_step]) fresh_world
      = (Ok tt, extend fresh_world evs)
      ∧ filter is_download evs
        = step_download
          <$> filter recognized [broken_step; copy_step; setup_step].
Proof.
  assert (H : Forall has_action [broken_step; copy_step; setup_step]).
  { repeat constructor; eexists _, _; (split; [reflexivity|]); reflexivity. }
  split; [exact H|].
  destruct (perform_steps_isolates_failures (host true ∅ any_disk)
              (games false false) [broken_step; copy_step; setup_step]
              fresh_world H) as (evs & Hrun & Hdl & _).
  exists evs. split; [exact Hrun|exact Hdl].
Defined.

Lemma create_desktop_entry_sandboxed_witness :
  is_Some (os_environ (host true flatpak any_disk) !! "FLATPAK_ID")
  ∧ create_desktop_entry (host true flatpak any_disk) (games false false)
      (VDict game_manifest) (VDict game_executable) fresh_world
    = (Ok tt, fresh_world).
Proof.
  assert (H : is_Some (os_environ (host true flatpak any_disk)
                       !! "FLATPAK_ID"))
    by (eexists; vm_compute; reflexivity).
  split; [exact H|].
  exact (create_desktop_entry_sandboxed (host true flatpak any_disk)
           (games false false) game_manifest game_executable fresh_world H).
Defined.



Lemma desktop_files_do_not_collide_witness :
  os_environ (host true ∅ any_disk) !! "FLATPAK_ID" = None
  ∧ now fresh_world ≠ now later_world
  ∧ desktop_file (host true ∅ any_disk) (games false false)
      (VDict game_manifest) (now fresh_world)
    ≠ desktop_file (host true ∅ any_disk) (games false false)
        (VDict game_manifest) (now later_world).
Proof.
  assert (H1 : os_environ (host true ∅ any_disk) !! "FLATPAK_ID" = None)
    by reflexivity.
  assert (H2 : now fresh_world ≠ now later_world) by (vm_compute; discriminate).
  split; [exact H1|]. split; [exact H2|].
  exact (proj1 (proj2 (desktop_files_do_not_collide
                         (host true ∅ any_disk) (games false false)
                         game_manifest game_manifest
                         game_executable game_executable
                         fresh_world later_world H1 eq_refl H2))).
Defined.

Lemma async_install_without_manifest_witness :
  dict_get [("Category", VStr "games")] "Category" = Some (VStr "games")
  ∧ get_installer (host false ∅ any_disk) (VStr "game") (VStr "games") false
      fresh_world = (Ok (VBool false), fresh_world)
  ∧ async_install (host false ∅ any_disk) (games false false) game_installer
      (Some 7) fresh_world
    = (Raise AttributeError, fresh_world).
Proof.
  split; [reflexivity|]. split; [reflexivity|].
  exact (proj1 (async_install_without_manifest
                  (host false ∅ any_disk) (games false false)
                  (VStr "game") (VStr "games") [("Category", VStr "games")]
                  [] (Some 7) fresh_world fresh_world eq_refl eq_refl)).
Defined.

(** * Further properties of the methods *)

(** ** [get_installer] *)

(** X1.  With connectivity and a response that can be read, the manifest is
    asked for at [{repository}/{category}/{name}.yml], once; in plain mode
    the decoded text comes back as it is, whatever the YAML parser would
    make of it, otherwise what the parser returns comes back, dict or not. *)
Theorem get_installer_fetches
    (E : Externals) (name cat : value) (plain : bool) (body : string)
    (w : World) :
  check_connection E = true →
  urlopen E (repo_installers E +:+ "/" +:+ py_str E cat +:+ "/"
             +:+ py_str E name +:+ ".yml") = Ok (Ok body) →
  (∀ text, plain = true → decode_utf8 E body = Ok text →
     get_installer E name cat plain w
     = (Ok (VStr text),
        extend w [EUrlopen (repo_installers E +:+ "/" +:+ py_str E cat
                            +:+ "/" +:+ py_str E name +:+ ".yml")]))
  ∧ (∀ v, plain = false → yaml_safe_load E body = Ok v →
     get_installer E name cat plain w
     = (Ok v,
        extend w [EUrlopen (repo_installers E +:+ "/" +:+ py_str E cat
                            +:+ "/" +:+ py_str E name +:+ ".yml")])).
Proof.
  intros Hc Hopen. rewrite get_installer_connected by done.
  unfold manifest_url. rewrite Hopen. split.
  - intros text -> Hd. by rewrite Hd.
  - intros v -> Hy. by rewrite Hy.
Qed.

Lemma get_installer_fetches_witness :
  check_connection (host true ∅ any_disk) = true
  ∧ get_installer (host true ∅ any_disk) (VStr "game") (VStr "games") true
      fresh_world
    = (Ok (VStr "manifest"),
       extend fresh_world [EUrlopen "https://repo/installers/games/game.yml"]).
Proof.
  split; [reflexivity|].
  exact (proj1 (get_installer_fetches (host true ∅ any_disk) (VStr "game")
                  (VStr "games") true "manifest" fresh_world
                  eq_refl eq_refl) "manifest" eq_refl eq_refl).
Defined.

(** ** [__set_parameters] *)

(** X2.  A parameter map that asks for neither [dxvk] nor [vkd3d] is written
    key by key, in the order of the map, through [update_configuration] in
    the [Parameters] scope and nothing else happens, whatever the
    configuration holds. *)
Theorem set_parameters_plain
    (cfg : BottleConfig) (parameters : dict) (w : World) :
  truthy (field (VDict parameters) "dxvk") = false →
  truthy (field (VDict parameters) "vkd3d") = false →
  set_parameters cfg (VDict parameters) w
  = (Ok tt, extend w (parameter_updates cfg parameters)).
Proof.
  unfold field. intros Hd Hv.
  cbv [set_parameters py_get py_iter]. monad. rewrite Hd, Hv. simpl.
  by rewrite for_each_update_parameter by (intros; by apply dict_get_keys).
Qed.

Lemma set_parameters_plain_witness :
  set_parameters (games false false) (VDict [("sync", VStr "esync")])
    fresh_world
  = (Ok tt,
     extend fresh_world
       (parameter_updates (games false false) [("sync", VStr "esync")])).
Proof.
  exact (set_parameters_plain (games false false) [("sync", VStr "esync")]
           fresh_world eq_refl eq_refl).
Defined.

(** X3.  When the map asks for [dxvk] and the configuration has no [dxvk]
    parameter, applying the parameters raises [KeyError] on reading it:
    nothing is installed and nothing is written. *)
Theorem set_parameters_missing_dxvk
    (cfg : BottleConfig) (parameters : dict) (w : World) :
  truthy (field (VDict parameters) "dxvk") = true →
  Parameters cfg !! "dxvk" = None →
  set_parameters cfg (VDict parameters) w = (Raise (KeyError "dxvk"), w).
Proof.
  unfold field. intros Hd Hc.
  cbv [set_parameters py_get config_parameter]. monad. by rewrite Hd, Hc.
Qed.

Lemma set_parameters_missing_dxvk_witness :
  Parameters {| Name := "Empty"; Path := "Empty"; Parameters := ∅;
                Installed_Dependencies := []; Programs := ∅ |} !! "dxvk" = None
  ∧ set_parameters {| Name := "Empty"; Path := "Empty"; Parameters := ∅;
                      Installed_Dependencies := []; Programs := ∅ |}
      (VDict [("dxvk", VBool true)]) fresh_world
    = (Raise (KeyError "dxvk"), fresh_world).
Proof.
  split; [reflexivity|].
  exact (set_parameters_missing_dxvk
           {| Name := "Empty"; Path := "Empty"; Parameters := ∅;
              Installed_Dependencies := []; Programs := ∅ |}
           [("dxvk", VBool true)] fresh_world eq_refl eq_refl).
Defined.

(** X4.  When the map asks for [vkd3d] and not for [dxvk], the vkd3d
    install routine is called exactly when the value of [vkd3d] that the
    configuration holds is true; the parameters are written after it. *)
Theorem set_parameters_vkd3d
    (cfg : BottleConfig) (parameters : dict) (current : value) (w : World) :
  truthy (field (VDict parameters) "dxvk") = false →
  truthy (field (VDict parameters) "vkd3d") = true →
  Parameters cfg !! "vkd3d" = Some current →
  set_parameters cfg (VDict parameters) w
  = (Ok tt,
     extend w ((if truthy current then [EInstallVkd3d cfg] else [])
               ++ parameter_updates cfg parameters)).
Proof.
  unfold field. intros Hd Hv Hc.
  cbv [set_parameters py_get config_parameter py_iter]. monad.
  rewrite Hd, Hv, Hc.
  destruct (truthy current); simpl;
    rewrite for_each_update_parameter by (intros; by apply dict_get_keys);
    by rewrite ?log_extend, ?extend_extend.
Qed.

Lemma set_parameters_vkd3d_witness :
  Parameters (games false true) !! "vkd3d" = Some (VBool true)
  ∧ set_parameters (games false true) (VDict [("vkd3d", VBool true)])
      fresh_world
    = (Ok tt,
       extend fresh_world
         ([EInstallVkd3d (games false true)]
          ++ parameter_updates (games false true) [("vkd3d", VBool true)])).
Proof.
  assert (H : Parameters (games false true) !! "vkd3d" = Some (VBool true))
    by (vm_compute; reflexivity).
  split; [exact H|].
  exact (set_parameters_vkd3d (games false true) [("vkd3d", VBool true)]
           (VBool true) fresh_world eq_refl eq_refl H).
Defined.

(** ** [__install_dependencies] *)

Lemma in_strs_unhashable v l : unhashable v = true → in_strs v l = false.
Proof.
  intros Hv. unfold in_strs.
  induction l as [|s l IH]; [done|]. cbn [existsb]. rewrite IH.
  by destruct v.
Qed.

(** X5.  An entry of the dependency list that is a list or a dict cannot be
    looked up in the catalog: the loop raises [TypeError] there, after the
    submissions of the identifiers before it and without those after it. *)
Theorem install_dependencies_unhashable
    (E : Externals) (cfg : BottleConfig) (before : list string)
    (bad : value) (after : list value) (w : World) :
  unhashable bad = true →
  install_dependencies E cfg (VList ((VStr <$> before) ++ bad :: after)) w
  = (Raise TypeError, extend w (submission E cfg <$> missing cfg before)).
Proof.
  intros Hbad. unfold install_dependencies, py_iter. rewrite bind_ret_l.
  rewrite for_each_app, for_each_install_dependency.
  cbn [for_each]. unfold bind, install_dependency.
  rewrite in_strs_unhashable by done.
  by destruct bad.
Qed.

Lemma install_dependencies_unhashable_witness :
  install_dependencies (host true ∅ any_disk) (games false false)
    (VList ((VStr <$> ["vcredist2019"]) ++ VList [] :: [VStr "dotnet40"]))
    fresh_world
  = (Raise TypeError,
     extend fresh_world
       (submission (host true ∅ any_disk) (games false false)
        <$> missing (games false false) ["vcredist2019"])).
Proof.
  exact (install_dependencies_unhashable (host true ∅ any_disk)
           (games false false) ["vcredist2019"] (VList []) [VStr "dotnet40"]
           fresh_world eq_refl).
Defined.

(** ** [__perform_steps] *)

Lemma steps_events_unrecognized E cfg tr steps :
  Forall (λ st, recognized st = false) steps →
  steps_events E cfg tr steps = [].
Proof.
  intros H. revert tr. induction H as [|st steps Hst _ IH]; intros tr; [done|].
  cbn [steps_events]. unfold step_events. rewrite Hst. cbn [app].
  rewrite app_nil_r. apply IH.
Qed.

(** X6.  A step that has no [action] entry stops the loop with [KeyError]:
    the steps before it have been performed, the steps after it are not. *)
Theorem perform_steps_missing_action
    (E : Externals) (cfg : BottleConfig) (before : list value) (st : dict)
    (after : list value) (w : World) :
  Forall has_action before →
  dict_get st "action" = None →
  perform_steps E cfg (VList (before ++ VDict st :: after)) w
  = (Raise (KeyError "action"),
     extend w (steps_events E cfg (trace w) before)).
Proof.
  intros Hbefore Hst. unfold perform_steps, py_iter. rewrite bind_ret_l.
  rewrite for_each_app, for_each_perform_step by done.
  cbn [for_each]. unfold bind, perform_step, py_getitem, bind.
  by rewrite Hst.
Qed.

Lemma perform_steps_missing_action_witness :
  Forall has_action [setup_step]
  ∧ perform_steps (host true ∅ any_disk) (games false false)
      (VList ([setup_step] ++ VDict [("url", VStr "https://mirror/x.exe")]
              :: [setup_step])) fresh_world
    = (Raise (KeyError "action"),
       extend fresh_world
         (steps_events (host true ∅ any_disk) (games false false)
            (trace fresh_world) [setup_step])).
Proof.
  assert (H : Forall has_action [setup_step]).
  { repeat constructor. eexists _, _. split; reflexivity. }
  split; [exact H|].
  exact (perform_steps_missing_action (host true ∅ any_disk)
           (games false false) [setup_step]
           [("url", VStr "https://mirror/x.exe")] [setup_step] fresh_world
           H eq_refl).
Defined.

(** X7.  Steps whose action is neither [install_exe] nor [install_msi] are
    passed over: nothing is downloaded, nothing is launched, the world
    stays as it was. *)
Theorem perform_steps_unrecognized
    (E : Externals) (cfg : BottleConfig) (steps : list value) (w : World) :
  Forall has_action steps →
  Forall (λ st, recognized st = false) steps →
  perform_steps E cfg (VList steps) w = (Ok tt, w).
Proof.
  intros Hs Hu. unfold perform_steps, py_iter. rewrite bind_ret_l.
  rewrite for_each_perform_step by done.
  by rewrite steps_events_unrecognized, extend_nil.
Qed.

Lemma perform_steps_unrecognized_witness :
  Forall has_action [copy_step]
  ∧ Forall (λ st, recognized st = false) [copy_step]
  ∧ perform_steps (host true ∅ any_disk) (games false false)
      (VList [copy_step]) fresh_world
    = (Ok tt, fresh_world).
Proof.
  assert (H1 : Forall has_action [copy_step]).
  { repeat constructor. eexists _, _. split; reflexivity. }
  assert (H2 : Forall (λ st, recognized st = false) [copy_step])
    by (repeat constructor).
  split; [exact H1|]. split; [exact H2|].
  exact (perform_steps_unrecognized (host true ∅ any_disk)
           (games false false) [copy_step] fresh_world H1 H2).
Defined.

Lemma steps_events_launches E cfg tr steps :
  (∀ tr' st, downloaded E tr' st = true) →
  steps_events E cfg tr steps = launches E cfg steps.
Proof.
  intros Hd. revert tr. unfold launches.
  induction steps as [|st steps IH]; intros tr; [done|].
  cbn [steps_events]. rewrite IH, (filter_cons _ st). unfold step_events.
  rewrite Hd. by destruct (recognized st).
Qed.

(** X8.  When every download succeeds, each step with an install action is
    downloaded and then launched before the next step is looked at: the
    file launched is [{temp}/{rename}] when the step has a [rename] and
    [{temp}/{file_name}] otherwise, with the step's [arguments] and
    [environment]. *)
Theorem perform_steps_launches
    (E : Externals) (cfg : BottleConfig) (steps : list value) (w : World) :
  Forall has_action steps →
  (∀ tr st, downloaded E tr st = true) →
  perform_steps E cfg (VList steps) w
  = (Ok tt,
     extend w
       (flat_map
          (λ st,
             [EDownload "installer" (field st "url") (field st "file_name")
                (field st "rename") (field st "file_checksum");
              ERunExecutable cfg
                (paths_temp E +:+ "/"
                 +:+ py_str E (if truthy (field st "rename")
                               then field st "rename"
                               else field st "file_name"))
                (field st "arguments") (field st "environment")])
          (filter recognized steps))).
Proof.
  intros Hs Hd. unfold perform_steps, py_iter. rewrite bind_ret_l.
  rewrite for_each_perform_step by done.
  by rewrite steps_events_launches.
Qed.

Lemma perform_steps_launches_witness :
  Forall has_action [broken_step; copy_step; setup_step]
  ∧ perform_steps (reliable (host true ∅ any_disk)) (games false false)
      (VList [broken_step; copy_step; setup_step]) fresh_world
    = (Ok tt,
       extend fresh_world
         [EDownload "installer" (VStr "https://mirror/broken.exe")
            (VStr "broken.exe") VNone VNone;
          ERunExecutable (games false false) "/tmp/broken.exe" VNone VNone;
          EDownload "installer" (VStr "https://mirror/setup.msi")
            (VStr "setup.msi") (VStr "game.msi") VNone;
          ERunExecutable (games false false) "/tmp/game.msi" (VStr "/quiet")
            VNone]).
Proof.
  assert (H : Forall has_action [broken_step; copy_step; setup_step]).
  { repeat constructor; eexists _, _; split; reflexivity. }
  split; [exact H|].
  exact (perform_steps_launches (reliable (host true ∅ any_disk))
           (games false false) [broken_step; copy_step; setup_step]
           fresh_world H (λ _ _, eq_refl)).
Defined.

(** ** [__download_icon] *)



(** X10.  With the icons directory there, nothing at the place of the icon,
    a response that can be read and a disk that takes it, the file at
    [{bottle}/icons/{icon}] holds the bytes of the response afterwards, and
    no other path has changed. *)
Theorem download_icon_stores_response
    (E : Externals) (cfg : BottleConfig) (manifest executable : dict)
    (body : string) (w : World) :
  is_there (fs w) (icons_dir E cfg) = true →
  fs w !! icon_file E cfg (VDict executable) = None →
  urlopen E (icon_url E (VDict manifest) (VDict executable)) = Ok (Ok body) →
  open_ok E (icon_file E cfg (VDict executable)) = true →
  write_ok E (icon_file E cfg (VDict executable)) "" body = true →
  ∃ w',
    download_icon E cfg (VDict executable) (VDict manifest) w = (Ok tt, w')
    ∧ fs w' !! icon_file E cfg (VDict executable) = Some (File body)
    ∧ (∀ q, q ≠ icon_file E cfg (VDict executable) →
            fs w' !! q = fs w !! q)
    ∧ trace w'
      = trace w
        ++ [EUrlretrieve (icon_url E (VDict manifest) (VDict executable))
              (icon_file E cfg (VDict executable));
            EOpen (icon_file E cfg (VDict executable));
            EWrite (icon_file E cfg (VDict executable)) body;
            EClose (icon_file E cfg (VDict executable))].
Proof.
  intros Hdir Hnone Hnet Hopen Hwrite. rewrite download_icon_unfold.
  unfold os_path_exists, os_path_isfile, urlretrieve, with_open_w, open_w,
    write.
  monad. rewrite Hdir. cbn [negb]. unfold is_file. rewrite Hnone. cbn [negb].
  rewrite Hnet. world. rewrite Hnone, Hopen. world.
  rewrite lookup_insert_eq, Hwrite. world.
  eexists. split; [reflexivity|]. cbn [fs trace].
  split; [by rewrite lookup_insert_eq|]. split; [|done].
  intros q Hq. by rewrite !lookup_insert_ne.
Qed.

Lemma download_icon_stores_response_witness :
  is_there (fs icons_world)
    (icons_dir (host true ∅ any_disk) (games false false)) = true
  ∧ ∃ w',
      download_icon (host true ∅ any_disk) (games false false)
        (VDict game_executable) (VDict game_manifest) icons_world
      = (Ok tt, w')
      ∧ fs w' !! icon_file (host true ∅ any_disk) (games false false)
                   (VDict game_executable)
        = Some (File "manifest").
Proof.
  split; [vm_compute; reflexivity|].
  destruct (download_icon_stores_response (host true ∅ any_disk)
              (games false false) game_manifest game_executable "manifest"
              icons_world
              ltac:(vm_compute; reflexivity) ltac:(vm_compute; reflexivity)
              eq_refl eq_refl eq_refl) as (w' & Hrun & Hfile & _).
  exists w'. split; [exact Hrun|exact Hfile].
Defined.

(** ** [__create_desktop_entry] *)

Lemma writes_ok_all E p c chunks :
  (∀ c' chunk, write_ok E p c' chunk = true) → writes_ok E p c chunks = true.
Proof.
  intros H. revert c. induction chunks as [|ch rest IH]; intros c; [done|].
  cbn [writes_ok]. by rewrite H, IH.
Qed.

(** X11.  Outside the sandbox, on a disk that takes every write, making the
    desktop entry returns and the file of the entry holds the text of the
    entry from its first line on: what a file of that name held before is
    gone, and no other path has changed. *)
Theorem create_desktop_entry_replaces
    (E : Externals) (cfg : BottleConfig) (manifest executable : dict)
    (w : World) :
  os_environ E !! "FLATPAK_ID" = None →
  fs w !! desktop_file E cfg (VDict manifest) (now w) ≠ Some Dir →
  open_ok E (desktop_file E cfg (VDict manifest) (now w)) = true →
  (∀ c chunk,
     write_ok E (desktop_file E cfg (VDict manifest) (now w)) c chunk = true) →
  ∃ w',
    create_desktop_entry E cfg (VDict manifest) (VDict executable) w
    = (Ok tt, w')
    ∧ fs w' !! desktop_file E cfg (VDict manifest) (now w)
      = Some (File (join (entry_chunks E cfg (VDict manifest)
                            (VDict executable))))
    ∧ ∀ q, q ≠ desktop_file E cfg (VDict manifest) (now w) →
           fs w' !! q = fs w !! q.
Proof.
  intros Hflatpak Hdir Hopen Hdisk.
  rewrite create_desktop_entry_written by done.
  pose proof (writes_ok_all E _ "" (entry_chunks E cfg (VDict manifest)
                                      (VDict executable)) Hdisk) as Hok.
  rewrite Hok. apply writes_ok_written in Hok. rewrite Hok.
  eexists. split; [reflexivity|]. cbn [fs]. split.
  - by rewrite lookup_insert_eq.
  - intros q Hq. by rewrite lookup_insert_ne.
Qed.

Lemma create_desktop_entry_replaces_witness :
  os_environ (host true ∅ any_disk) !! "FLATPAK_ID" = None
  ∧ ∃ w',
      create_desktop_entry (host true ∅ any_disk) (games false false)
        (VDict game_manifest) (VDict game_executable) fresh_world
      = (Ok tt, w')
      ∧ fs w' !! desktop_file (host true ∅ any_disk) (games false false)
                   (VDict game_manifest) (now fresh_world)
        = Some (File (join (entry_chunks (host true ∅ any_disk)
                              (games false false) (VDict game_manifest)
                              (VDict game_executable)))).
Proof.
  assert (H1 : os_environ (host true ∅ any_disk) !! "FLATPAK_ID" = None)
    by reflexivity.
  assert (H2 : fs fresh_world
               !! desktop_file (host true ∅ any_disk) (games false false)
                    (VDict game_manifest) (now fresh_world) ≠ Some Dir)
    by (vm_compute; discriminate).
  split; [exact H1|].
  destruct (create_desktop_entry_replaces (host true ∅ any_disk)
              (games false false) game_manifest game_executable fresh_world
              H1 H2 eq_refl (λ _ _, eq_refl)) as (w' & Hrun & Hfile & _).
  exists w'. split; [exact Hrun|exact Hfile].
Defined.

(** X12.  For an executable that declares no icon the default icon is
    written without the end of its line: in the file of the entry
    [Icon=com.usebottles.bottles] and [Comment=...] stand on one line. *)
Theorem create_desktop_entry_default_icon
    (E : Externals) (cfg : BottleConfig) (manifest executable : dict)
    (w : World) :
  os_environ E !! "FLATPAK_ID" = None →
  fs w !! desktop_file E cfg (VDict manifest) (now w) ≠ Some Dir →
  open_ok E (desktop_file E cfg (VDict manifest) (now w)) = true →
  (∀ c chunk,
     write_ok E (desktop_file E cfg (VDict manifest) (now w)) c chunk = true) →
  truthy (field (VDict executable) "icon") = false →
  ∃ w',
    create_desktop_entry E cfg (VDict manifest) (VDict executable) w
    = (Ok tt, w')
    ∧ fs w' !! desktop_file E cfg (VDict manifest) (now w)
      = Some (File
          ("[Desktop Entry]" +:+ nl
           +:+ "Name=" +:+ py_str E (field (VDict executable) "name") +:+ nl
           +:+ "Exec=bottles -e '" +:+ paths_bottles E +:+ "/" +:+ Path cfg
           +:+ "/drive_c/" +:+ py_str E (field (VDict executable) "path")
           +:+ "/" +:+ py_str E (field (VDict executable) "file")
           +:+ "' -b '" +:+ Name cfg +:+ "'" +:+ nl
           +:+ "Type=Application" +:+ nl
           +:+ "Terminal=false" +:+ nl
           +:+ "Categories=Application;" +:+ nl
           +:+ "Icon=com.usebottles.bottlesComment="
           +:+ py_str E (field (VDict manifest) "Description") +:+ nl
           +:+ "Actions=Configure;" +:+ nl
           +:+ "[Desktop Action Configure]" +:+ nl
           +:+ "Name=Configure in Bottles" +:+ nl
           +:+ "Exec=bottles -b '" +:+ Name cfg +:+ "'" +:+ nl)).
Proof.
  intros Hflatpak Hdir Hopen Hdisk Hicon.
  rewrite create_desktop_entry_written by done.
  pose proof (writes_ok_all E _ "" (entry_chunks E cfg (VDict manifest)
                                      (VDict executable)) Hdisk) as Hok.
  rewrite Hok. apply writes_ok_written in Hok. rewrite Hok.
  eexists. split; [reflexivity|]. cbn [fs]. rewrite lookup_insert_eq.
  do 2 f_equal. unfold entry_chunks, ex_path, join. rewrite Hicon.
  cbn [foldr]. rewrite !append_assoc, append_empty_r. reflexivity.
Qed.

Lemma create_desktop_entry_default_icon_witness :
  os_environ (host true ∅ any_disk) !! "FLATPAK_ID" = None
  ∧ truthy (field (VDict tool_executable) "icon") = false
  ∧ ∃ w',
      create_desktop_entry (host true ∅ any_disk) (games false false)
        (VDict tool_manifest) (VDict tool_executable) fresh_world
      = (Ok tt, w')
      ∧ fs w' !! "/apps/Games--Tool--1604433600.25.desktop"
        = Some (File
            ("[Desktop Entry]" +:+ nl
             +:+ "Name=Tool" +:+ nl
             +:+ "Exec=bottles -e '/bottles/Games/drive_c/Tool/tool.exe' -b 'Games'"
             +:+ nl
             +:+ "Type=Application" +:+ nl
             +:+ "Terminal=false" +:+ nl
             +:+ "Categories=Application;" +:+ nl
             +:+ "Icon=com.usebottles.bottlesComment=A tool" +:+ nl
             +:+ "Actions=Configure;" +:+ nl
             +:+ "[Desktop Action Configure]" +:+ nl
             +:+ "Name=Configure in Bottles" +:+ nl
             +:+ "Exec=bottles -b 'Games'" +:+ nl)).
Proof.
  assert (H1 : os_environ (host true ∅ any_disk) !! "FLATPAK_ID" = None)
    by reflexivity.
  assert (H2 : fs fresh_world
               !! desktop_file (host true ∅ any_disk) (games false false)
                    (VDict tool_manifest) (now fresh_world) ≠ Some Dir)
    by (vm_compute; discriminate).
  split; [exact H1|]. split; [reflexivity|].
  exact (create_desktop_entry_default_icon (host true ∅ any_disk)
           (games false false) tool_manifest tool_executable fresh_world
           H1 H2 eq_refl (λ _ _, eq_refl) eq_refl).
Defined.

(** ** What the methods may add to the trace *)

Section Emits.
Context {P : event → bool}.

Lemma emits_pure {A} (m : M A) : (∀ w, snd (m w) = w) → emits P m.
Proof.
  intros H w r w' Hm. exists []. specialize (H w). rewrite Hm in H.
  simpl in H. subst. by rewrite app_nil_r.
Qed.

Lemma emits_ret {A} (a : A) : emits P (ret a).
Proof. by apply emits_pure. Qed.

Lemma emits_raise {A} (e : exn) : emits P (raise (A := A) e).
Proof. by apply emits_pure. Qed.

Lemma emits_lift {A} (r : result A) : emits P (lift r).
Proof. apply emits_pure. by destruct r. Qed.

Lemma emits_emit e : P e = true → emits P (emit e).
Proof.
  intros He w r w' [= <- <-]. exists [e]. split; [done|]. by constructor.
Qed.

Lemma emits_bind {A B} (m : M A) (k : A → M B) :
  emits P m → (∀ a, emits P (k a)) → emits P (bind m k).
Proof.
  intros Hm Hk w r w' H. unfold bind in H.
  destruct (m w) as [[a|e] w1] eqn:Hmw.
  - destruct (Hm _ _ _ Hmw) as (evs1 & Ht1 & Hp1).
    destruct (Hk a _ _ _ H) as (evs2 & Ht2 & Hp2).
    exists (evs1 ++ evs2). rewrite Ht2, Ht1, app_assoc.
    split; [done|]. by apply Forall_app.
  - injection H as <- <-. by apply (Hm _ _ _ Hmw).
Qed.

Lemma emits_when (b : bool) (m : M unit) : emits P m → emits P (when b m).
Proof. destruct b; [done|]. intros _. apply emits_ret. Qed.

Lemma emits_for_each {A} (l : list A) (body : A → M unit) :
  (∀ x, emits P (body x)) → emits P (for_each l body).
Proof.
  intros Hb. induction l as [|x l IH]; [apply emits_ret|].
  cbn [for_each]. by apply emits_bind.
Qed.

Lemma emits_try_except {A} (m h : M A) :
  emits P m → emits P h → emits P (try_except m h).
Proof.
  intros Hm Hh w r w' H. unfold try_except in H.
  destruct (m w) as [[a|e] w1] eqn:Hmw.
  - injection H as <- <-. by apply (Hm _ _ _ Hmw).
  - destruct (Hm _ _ _ Hmw) as (evs1 & Ht1 & Hp1).
    destruct (Hh _ _ _ H) as (evs2 & Ht2 & Hp2).
    exists (evs1 ++ evs2). rewrite Ht2, Ht1, app_assoc.
    split; [done|]. by apply Forall_app.
Qed.

Lemma emits_finally {A} (m : M A) (c : M unit) :
  emits P m → emits P c → emits P (finally m c).
Proof.
  intros Hm Hc w r w' H. unfold finally in H.
  destruct (m w) as [r1 w1] eqn:Hmw.
  destruct (c w1) as [[[]|e] w2] eqn:Hcw; injection H as <- <-;
    destruct (Hm _ _ _ Hmw) as (evs1 & Ht1 & Hp1);
    destruct (Hc _ _ _ Hcw) as (evs2 & Ht2 & Hp2);
    exists (evs1 ++ evs2); rewrite Ht2, Ht1, app_assoc;
    (split; [done|]); by apply Forall_app.
Qed.

Lemma emits_percent fmt args : emits P (percent fmt args).
Proof. apply emits_pure. intros w. unfold percent. by destruct py_percent. Qed.

Lemma emits_py_get v k : emits P (py_get v k).
Proof. apply emits_pure. by destruct v. Qed.

Lemma emits_py_getitem v k : emits P (py_getitem v k).
Proof.
  apply emits_pure. intros w. destruct v; try done.
  unfold py_getitem. by destruct (dict_get d k).
Qed.

Lemma emits_py_getitem_int v i : emits P (py_getitem_int v i).
Proof.
  apply emits_pure. intros w. destruct v; try done; unfold py_getitem_int.
  - by destruct (String.get i s).
  - by destruct (l !! i).
Qed.

Lemma emits_py_iter v : emits P (py_iter v).
Proof. apply emits_pure. by destruct v. Qed.

End Emits.

(** Takes a method apart along its binds, tests and loops. *)
Ltac emits_with leaf :=
  repeat first
    [ leaf
    | apply emits_ret | apply emits_raise | apply emits_lift
    | apply emits_percent | apply emits_py_get | apply emits_py_getitem
    | apply emits_py_getitem_int | apply emits_py_iter
    | apply emits_pure; done
    | apply emits_emit; reflexivity
    | apply emits_when
    | apply emits_try_except | apply emits_finally
    | apply emits_bind; [|intros ?]
    | match goal with
      | |- emits _ (if ?b then _ else _) => destruct b
      | |- emits _ (match ?x with _ => _ end) => destruct x
      end ].

Ltac emits_body := emits_with fail.

Lemma emits_get_installer E name cat plain : emits quiet (get_installer E name cat plain).
Proof. unfold get_installer. emits_body. Qed.

Lemma emits_os_makedirs E p : emits quiet (os_makedirs E p).
Proof.
  intros w r w' H. unfold os_makedirs in H. revert H. monad. world.
  repeat break_match; intros [= <- <-]; exists [EMakedirs p];
    (split; [done|]); by repeat constructor.
Qed.

Lemma emits_open_w E p : emits quiet (open_w E p).
Proof.
  intros w r w' H. unfold open_w in H. revert H. monad. world.
  repeat break_match; intros [= <- <-]; exists [EOpen p];
    (split; [done|]); by repeat constructor.
Qed.

Lemma emits_write E p chunk : emits quiet (write E p chunk).
Proof.
  intros w r w' H. unfold write in H. revert H. monad. world.
  repeat break_match; intros [= <- <-]; exists [EWrite p chunk];
    (split; [done|]); by repeat constructor.
Qed.

Lemma emits_component_download E c u f r' k :
  emits quiet (component_download E c u f r' k).
Proof.
  intros w r w' [= <- <-]. exists [EDownload c u f r' k].
  split; [done|]. by repeat constructor.
Qed.

Lemma emits_urlretrieve E url p : emits quiet (urlretrieve E url p).
Proof.
  unfold urlretrieve, with_open_w.
  emits_with ltac:(first [apply emits_open_w | apply emits_write]).
Qed.

Lemma emits_download_icon E cfg executable manifest :
  emits quiet (download_icon E cfg executable manifest).
Proof.
  unfold download_icon, os_path_exists, os_path_isfile.
  emits_with ltac:(first [apply emits_os_makedirs | apply emits_urlretrieve]).
Qed.

Lemma emits_install_dependencies E cfg dependencies :
  emits quiet (install_dependencies E cfg dependencies).
Proof.
  unfold install_dependencies. emits_body.
  apply emits_for_each. intros dep.
  unfold install_dependency, catalog_get. emits_body.
Qed.

Lemma emits_perform_steps E cfg steps : emits quiet (perform_steps E cfg steps).
Proof.
  unfold perform_steps. emits_body.
  apply emits_for_each. intros st.
  unfold perform_step. emits_with ltac:(apply emits_component_download).
Qed.

Lemma emits_set_parameters cfg parameters :
  emits quiet (set_parameters cfg parameters).
Proof.
  unfold set_parameters, config_parameter. emits_body.
  apply emits_for_each. intros param.
  unfold update_parameter. emits_body.
Qed.

Lemma emits_create_desktop_entry E cfg manifest executable :
  emits quiet (create_desktop_entry E cfg manifest executable).
Proof.
  unfold create_desktop_entry, get_world, with_open_w, write_desktop_entry.
  emits_with ltac:(first [apply emits_open_w | apply emits_write]).
Qed.

Lemma emits_weaken {A} (P Q : event → bool) (m : M A) :
  (∀ e, P e = true → Q e = true) → emits P m → emits Q m.
Proof.
  intros HPQ Hm w r w' H. destruct (Hm _ _ _ H) as (evs & Ht & Hp).
  exists evs. split; [done|]. eapply Forall_impl; [exact Hp|]. done.
Qed.

Lemma quiet_no_callback e : quiet e = true → negb (is_callback e) = true.
Proof. unfold quiet. by destruct (is_callback e). Qed.

Lemma quiet_registers_arguments e :
  quiet e = true → registers_arguments e = true.
Proof.
  destruct e; try done.
  unfold quiet, is_callback, is_registration, registers_arguments.
  by destruct (String.eqb scope "Programs").
Qed.

Lemma emits_set_executable_arguments cfg executable :
  emits (λ e, negb (is_callback e))
    (set_executable_arguments cfg executable).
Proof. unfold set_executable_arguments. emits_body. Qed.

(** The stages of [__async_install] that stay clear of the widget and of
    the [Programs] scope. *)
Ltac stage :=
  first [ apply emits_get_installer | apply emits_download_icon
        | apply emits_install_dependencies | apply emits_perform_steps
        | apply emits_set_parameters | apply emits_create_desktop_entry ].

Lemma signals_bind {A} widget (m : M A) (k : A → M unit) :
  emits (λ e, negb (is_callback e)) m →
  (∀ a, signals widget (k a)) →
  signals widget (bind m k).
Proof.
  intros Hm Hk w. unfold bind.
  destruct (m w) as [[a|e] w1] eqn:Hmw;
    destruct (Hm _ _ _ Hmw) as (evs1 & Ht1 & Hp1).
  - destruct (Hk a w1) as (evs2 & Ht2 & Hp2).
    exists (evs1 ++ evs2). rewrite Ht2, Ht1, <- !app_assoc.
    split; [done|]. apply Forall_app. split; [|done].
    eapply Forall_impl; [exact Hp1|]. intros e. apply negb_true_iff.
  - exists evs1. cbn [fst snd signal]. rewrite app_nil_r.
    split; [done|].
    eapply Forall_impl; [exact Hp1|]. intros e'. apply negb_true_iff.
Qed.

(** X13.  The completion signal is the last thing an installation does, and
    it is sent exactly when the body returns and a widget was given: a body
    that raises, at whatever stage, sends none, and no stage before the end
    sends one. *)
Theorem async_install_signals_last
    (E : Externals) (cfg : BottleConfig) (installer : value)
    (widget : option nat) (w : World) :
  ∃ evs,
    trace (async_install E cfg installer widget w).2
    = trace w ++ evs
      ++ signal (async_install E cfg installer widget w).1 widget
    ∧ Forall (λ e, is_callback e = false) evs.
Proof.
  revert w. change (signals widget (async_install E cfg installer widget)).
  unfold async_install.
  repeat (apply signals_bind;
          [ first [ apply emits_set_executable_arguments
                  | apply emits_when; apply emits_set_executable_arguments
                  | apply (emits_weaken quiet);
                    [apply quiet_no_callback
                    |emits_with ltac:(stage)] ]
          | intros ? ]).
  destruct widget as [wd|]; intros w; exists []; (split; [|constructor]).
  - reflexivity.
  - cbn. by rewrite app_nil_r.
Qed.

Lemma emits_register cfg executable (k : M unit) :
  emits registers_arguments k →
  emits registers_arguments
    (bind (py_get executable "arguments")
       (λ arguments,
          bind (when (truthy arguments)
                  (set_executable_arguments cfg executable))
            (λ _, k))).
Proof.
  intros Hk. destruct executable; try (apply emits_pure; done).
  change (py_get (VDict d) "arguments")
    with (ret (default VNone (dict_get d "arguments"))).
  intros w r w' H. rewrite bind_ret_l in H. revert w r w' H.
  fold (emits registers_arguments
          (bind (when (truthy (default VNone (dict_get d "arguments")))
                   (set_executable_arguments cfg (VDict d))) (λ _, k))).
  apply emits_bind; [|done].
  destruct (truthy (default VNone (dict_get d "arguments"))) eqn:Hargs;
    [|apply emits_ret].
  unfold when, set_executable_arguments, py_get.
  intros w r w' H. rewrite !bind_ret_l in H. injection H as <- <-.
  eexists [_]. split; [done|]. repeat constructor.
  unfold registers_arguments. by rewrite Hargs.
Qed.

(** X14.  Whatever the manifest holds, an installation writes to the
    [Programs] scope of the configuration only arguments that are declared:
    every [update_configuration] it makes in that scope carries a value
    that is true; with no arguments, or empty ones, the executable is not
    registered. *)
Theorem async_install_registers_declared_arguments
    (E : Externals) (cfg : BottleConfig) (installer : value)
    (widget : option nat) (w : World) :
  ∃ evs,
    trace (async_install E cfg installer widget w).2 = trace w ++ evs
    ∧ ∀ c key v scope,
        EUpdateConfiguration c key v scope ∈ evs →
        scope = "Programs" → truthy v = true.
Proof.
  assert (H : emits registers_arguments
                (async_install E cfg installer widget)).
  { unfold async_install.
    repeat first
      [ apply emits_register
      | apply emits_bind;
        [ apply (emits_weaken quiet);
          [apply quiet_registers_arguments|emits_with ltac:(stage)]
        | intros ? ] ].
    destruct widget; emits_body. }
  destruct (async_install E cfg installer widget w) as [r w'] eqn:Hrun.
  destruct (H _ _ _ Hrun) as (evs & Ht & Hp).
  exists evs. split; [done|].
  intros c key v scope Hin ->.
  rewrite Forall_forall in Hp. apply Hp in Hin. exact Hin.
Qed.

(** X15.  A manifest that is no mapping, such as the [None] of an empty
    document, a string or a list, stops the installation with
    [AttributeError] at its first use, in the world the fetch left. *)
Theorem async_install_manifest_not_a_dict
    (E : Externals) (cfg : BottleConfig) (name category manifest : value)
    (entry : dict) (rest : list value) (widget : option nat) (w w' : World) :
  dict_get entry "Category" = Some category →
  get_installer E name category false w = (Ok manifest, w') →
  is_dict manifest = false →
  async_install E cfg (VList (name :: VDict entry :: rest)) widget w
  = (Raise AttributeError, w').
Proof.
  intros Hcat Hfetch Hdict. unfold async_install.
  change (py_getitem_int (VList (name :: VDict entry :: rest)) 0)
    with (ret name).
  change (py_getitem_int (VList (name :: VDict entry :: rest)) 1)
    with (ret (VDict entry)).
  rewrite !bind_ret_l. unfold py_getitem. rewrite Hcat, bind_ret_l.
  unfold bind at 1. rewrite Hfetch. by destruct manifest.
Qed.

(** X16.  A manifest without an [Executable] mapping stops the installation
    with [AttributeError] when its icon is asked for: before any icon,
    dependency, step, parameter or entry, in the world the fetch left. *)
Theorem async_install_without_executable
    (E : Externals) (cfg : BottleConfig) (name category : value)
    (entry manifest : dict) (rest : list value) (widget : option nat)
    (w w' : World) :
  dict_get entry "Category" = Some category →
  get_installer E name category false w = (Ok (VDict manifest), w') →
  is_dict (field (VDict manifest) "Executable") = false →
  async_install E cfg (VList (name :: VDict entry :: rest)) widget w
  = (Raise AttributeError, w').
Proof.
  intros Hcat Hfetch Hex. unfold async_install.
  change (py_getitem_int (VList (name :: VDict entry :: rest)) 0)
    with (ret name).
  change (py_getitem_int (VList (name :: VDict entry :: rest)) 1)
    with (ret (VDict entry)).
  rewrite !bind_ret_l. unfold py_getitem. rewrite Hcat, bind_ret_l.
  unfold bind at 1. rewrite Hfetch.
  unfold py_get at 1 2 3 4. rewrite !bind_ret_l.
  unfold field in Hex.
  by destruct (default VNone (dict_get manifest "Executable")).
Qed.

(** X17.  When the executable declares an icon and fetching it raises, the
    installation stops with that exception in the world the icon stage
    left: dependencies, steps, parameters, arguments, entry and signal are
    all skipped. *)
Theorem async_install_icon_failure
    (E : Externals) (cfg : BottleConfig) (name category : value)
    (entry manifest executable : dict) (rest : list value)
    (widget : option nat) (e : exn) (w w1 w2 : World) :
  dict_get entry "Category" = Some category →
  get_installer E name category false w = (Ok (VDict manifest), w1) →
  field (VDict manifest) "Executable" = VDict executable →
  truthy (field (VDict executable) "icon") = true →
  download_icon E cfg (VDict executable) (VDict manifest) w1 = (Raise e, w2) →
  async_install E cfg (VList (name :: VDict entry :: rest)) widget w
  = (Raise e, w2).
Proof.
  intros Hcat Hfetch Hex Hicon Hdl. unfold async_install.
  change (py_getitem_int (VList (name :: VDict entry :: rest)) 0)
    with (ret name).
  change (py_getitem_int (VList (name :: VDict entry :: rest)) 1)
    with (ret (VDict entry)).
  rewrite !bind_ret_l. unfold py_getitem. rewrite Hcat, bind_ret_l.
  unfold bind at 1. rewrite Hfetch.
  unfold py_get at 1 2 3 4. rewrite !bind_ret_l.
  unfold field in Hex, Hicon. rewrite Hex.
  unfold py_get at 1. rewrite bind_ret_l, Hicon.
  unfold when at 1, bind at 1. by rewrite Hdl.
Qed.

Lemma async_install_manifest_not_a_dict_witness :
  get_installer (parsing VNone (host true ∅ any_disk)) (VStr "game")
    (VStr "games") false fresh_world
  = (Ok VNone,
     extend fresh_world [EUrlopen "https://repo/installers/games/game.yml"])
  ∧ async_install (parsing VNone (host true ∅ any_disk)) (games false false)
      game_installer (Some 7) fresh_world
    = (Raise AttributeError,
       extend fresh_world [EUrlopen "https://repo/installers/games/game.yml"]).
Proof.
  assert (H : get_installer (parsing VNone (host true ∅ any_disk))
                (VStr "game") (VStr "games") false fresh_world
              = (Ok VNone,
                 extend fresh_world
                   [EUrlopen "https://repo/installers/games/game.yml"]))
    by reflexivity.
  split; [exact H|].
  exact (async_install_manifest_not_a_dict
           (parsing VNone (host true ∅ any_disk)) (games false false)
           (VStr "game") (VStr "games") VNone [("Category", VStr "games")] []
           (Some 7) fresh_world _ eq_refl H eq_refl).
Defined.

Lemma async_install_without_executable_witness :
  get_installer
    (parsing (VDict [("Name", VStr "Game")]) (host true ∅ any_disk))
    (VStr "game") (VStr "games") false fresh_world
  = (Ok (VDict [("Name", VStr "Game")]),
     extend fresh_world [EUrlopen "https://repo/installers/games/game.yml"])
  ∧ async_install
      (parsing (VDict [("Name", VStr "Game")]) (host true ∅ any_disk))
      (games false false) game_installer (Some 7) fresh_world
    = (Raise AttributeError,
       extend fresh_world [EUrlopen "https://repo/installers/games/game.yml"]).
Proof.
  assert (H : get_installer
                (parsing (VDict [("Name", VStr "Game")])
                   (host true ∅ any_disk))
                (VStr "game") (VStr "games") false fresh_world
              = (Ok (VDict [("Name", VStr "Game")]),
                 extend fresh_world
                   [EUrlopen "https://repo/installers/games/game.yml"]))
    by reflexivity.
  split; [exact H|].
  exact (async_install_without_executable
           (parsing (VDict [("Name", VStr "Game")]) (host true ∅ any_disk))
           (games false false) (VStr "game") (VStr "games")
           [("Category", VStr "games")] [("Name", VStr "Game")] []
           (Some 7) fresh_world _ eq_refl H eq_refl).
Defined.

Lemma async_install_icon_failure_witness :
  get_installer (without_icon (host true ∅ any_disk)) (VStr "game")
    (VStr "games") false icons_world
  = (Ok (VDict game_manifest),
     extend icons_world [EUrlopen "https://repo/installers/games/game.yml"])
  ∧ async_install (without_icon (host true ∅ any_disk)) (games false false)
      game_installer (Some 7) icons_world
    = (Raise URLError,
       extend icons_world
         [EUrlopen "https://repo/installers/games/game.yml";
          EUrlretrieve "https://repo/installers/data/Game/game.png"
            "/bottles/Games/icons/game.png"]).
Proof.
  assert (H1 : get_installer (without_icon (host true ∅ any_disk))
                 (VStr "game") (VStr "games") false icons_world
               = (Ok (VDict game_manifest),
                  extend icons_world
                    [EUrlopen "https://repo/installers/games/game.yml"]))
    by reflexivity.
  assert (H2 : download_icon (without_icon (host true ∅ any_disk))
                 (games false false) (VDict game_executable)
                 (VDict game_manifest)
                 (extend icons_world
                    [EUrlopen "https://repo/installers/games/game.yml"])
               = (Raise URLError,
                  extend icons_world
                    [EUrlopen "https://repo/installers/games/game.yml";
                     EUrlretrieve "https://repo/installers/data/Game/game.png"
                       "/bottles/Games/icons/game.png"]))
    by (vm_compute; reflexivity).
  split; [exact H1|].
  exact (async_install_icon_failure
           (without_icon (host true ∅ any_disk)) (games false false)
           (VStr "game") (VStr "games") [("Category", VStr "games")]
           game_manifest game_executable [] (Some 7) URLError icons_world
           _ _ eq_refl H1 eq_refl eq_refl H2).
Defined.

(** X18.  An installer entry without a [Category] stops the installation with
    [KeyError] before the manifest is asked for: the network is not touched
    and the world stays as it was. *)
Theorem async_install_without_category
    (E : Externals) (cfg : BottleConfig) (name : value) (entry : dict)
    (rest : list value) (widget : option nat) (w : World) :
  dict_get entry "Category" = None →
  async_install E cfg (VList (name :: VDict entry :: rest)) widget w
  = (Raise (KeyError "Category"), w).
Proof.
  intros Hcat. unfold async_install.
  change (py_getitem_int (VList (name :: VDict entry :: rest)) 0)
    with (ret name).
  change (py_getitem_int (VList (name :: VDict entry :: rest)) 1)
    with (ret (VDict entry)).
  rewrite !bind_ret_l. unfold py_getitem. by rewrite Hcat.
Qed.

Lemma async_install_without_category_witness :
  async_install (host true ∅ any_disk) (games false false)
    (VList [VStr "game"; VDict [("Name", VStr "Game")]]) (Some 7) fresh_world
  = (Raise (KeyError "Category"), fresh_world).
Proof.
  exact (async_install_without_category (host true ∅ any_disk)
           (games false false) (VStr "game") [("Name", VStr "Game")] []
           (Some 7) fresh_world eq_refl).
Defined.

(** X19.  Sections that a manifest leaves out or leaves empty are skipped:
    with no icon, no dependencies, no steps, no parameters and no
    arguments, an installation is the fetch of the manifest, the desktop
    entry and, when the entry is made, the signal to the widget. *)
Theorem async_install_bare_manifest
    (E : Externals) (cfg : BottleConfig) (name category : value)
    (entry manifest executable : dict) (rest : list value)
    (widget : option nat) (w w1 : World) :
  dict_get entry "Category" = Some category →
  get_installer E name category false w = (Ok (VDict manifest), w1) →
  field (VDict manifest) "Executable" = VDict executable →
  truthy (field (VDict manifest) "Dependencies") = false →
  truthy (field (VDict manifest) "Steps") = false →
  truthy (field (VDict manifest) "Parameters") = false →
  truthy (field (VDict executable) "icon") = false →
  truthy (field (VDict executable) "arguments") = false →
  async_install E cfg (VList (name :: VDict entry :: rest)) widget w
  = ((create_desktop_entry E cfg (VDict manifest) (VDict executable) w1).1,
     extend
       (create_desktop_entry E cfg (VDict manifest) (VDict executable) w1).2
       (signal
          (create_desktop_entry E cfg (VDict manifest) (VDict executable) w1).1
          widget)).
Proof.
  intros Hcat Hfetch Hex Hdeps Hsteps Hparams Hicon Hargs.
  unfold async_install.
  change (py_getitem_int (VList (name :: VDict entry :: rest)) 0)
    with (ret name).
  change (py_getitem_int (VList (name :: VDict entry :: rest)) 1)
    with (ret (VDict entry)).
  rewrite !bind_ret_l. unfold py_getitem. rewrite Hcat, bind_ret_l.
  unfold bind at 1. rewrite Hfetch.
  unfold py_get at 1 2 3 4. rewrite !bind_ret_l.
  unfold field in *. rewrite Hex, Hdeps, Hsteps, Hparams.
  unfold py_get at 1. rewrite bind_ret_l, Hicon.
  unfold when. rewrite !bind_ret_l.
  unfold py_get at 1. rewrite bind_ret_l, Hargs, bind_ret_l.
  unfold bind.
  destruct (create_desktop_entry E cfg (VDict manifest) (VDict executable) w1)
    as [[[]|e] w2]; cbn [fst snd signal].
  - destruct widget; [done|]. unfold ret. by rewrite extend_nil.
  - by rewrite extend_nil.
Qed.

Lemma async_install_bare_manifest_witness :
  get_installer (parsing (VDict tool_manifest) (host true flatpak any_disk))
    (VStr "tool") (VStr "tools") false fresh_world
  = (Ok (VDict tool_manifest),
     extend fresh_world [EUrlopen "https://repo/installers/tools/tool.yml"])
  ∧ async_install (parsing (VDict tool_manifest) (host true flatpak any_disk))
      (games false false)
      (VList [VStr "tool"; VDict [("Category", VStr "tools")]]) (Some 7)
      fresh_world
    = (Ok tt,
       extend fresh_world
         [EUrlopen "https://repo/installers/tools/tool.yml"; EIdleAdd 7]).
Proof.
  assert (H : get_installer
                (parsing (VDict tool_manifest) (host true flatpak any_disk))
                (VStr "tool") (VStr "tools") false fresh_world
              = (Ok (VDict tool_manifest),
                 extend fresh_world
                   [EUrlopen "https://repo/installers/tools/tool.yml"]))
    by reflexivity.
  split; [exact H|].
  exact (async_install_bare_manifest
           (parsing (VDict tool_manifest) (host true flatpak any_disk))
           (games false false) (VStr "tool") (VStr "tools")
           [("Category", VStr "tools")] tool_manifest tool_executable []
           (Some 7) fresh_world _ eq_refl H eq_refl eq_refl eq_refl eq_refl
           eq_refl eq_refl).
Defined.

(** ** What the methods may do to the files *)









(** X21.  Outside the sandbox, when the file of the entry cannot be opened,
    because a directory has its name or because the system refuses, the
    exception comes out of [__create_desktop_entry] and no file is made or
    changed. *)
Theorem create_desktop_entry_cannot_open
    (E : Externals) (cfg : BottleConfig) (manifest executable : dict)
    (w : World) :
  os_environ E !! "FLATPAK_ID" = None →
  (fs w !! desktop_file E cfg (VDict manifest) (now w) = Some Dir →
   create_desktop_entry E cfg (VDict manifest) (VDict executable) w
   = (Raise IsADirectoryError,
      extend w [EOpen (desktop_file E cfg (VDict manifest) (now w))]))
  ∧ (fs w !! desktop_file E cfg (VDict manifest) (now w) ≠ Some Dir →
     open_ok E (desktop_file E cfg (VDict manifest) (now w)) = false →
     create_desktop_entry E cfg (VDict manifest) (VDict executable) w
     = (Raise OSError,
        extend w [EOpen (desktop_file E cfg (VDict manifest) (now w))])).
Proof.
  intros Hflatpak. rewrite create_desktop_entry_run by done.
  unfold with_open_w, open_w. monad. world. split.
  - by intros ->.
  - intros Hdir ->. by destruct (fs w !! _) as [[|c]|].
Qed.

Lemma create_desktop_entry_cannot_open_witness :
  os_environ (host true ∅ any_disk) !! "FLATPAK_ID" = None
  ∧ create_desktop_entry (host true ∅ any_disk) (games false false)
      (VDict game_manifest) (VDict game_executable)
      {| fs := {["/apps/Games--Game--1604433600.25.desktop" := Dir]};
         trace := []; now := "1604433600.25" |}
    = (Raise IsADirectoryError,
       extend
         {| fs := {["/apps/Games--Game--1604433600.25.desktop" := Dir]};
            trace := []; now := "1604433600.25" |}
         [EOpen "/apps/Games--Game--1604433600.25.desktop"]).
Proof.
  assert (H1 : os_environ (host true ∅ any_disk) !! "FLATPAK_ID" = None)
    by reflexivity.
  split; [exact H1|].
  apply (proj1 (create_desktop_entry_cannot_open (host true ∅ any_disk)
                  (games false false) game_manifest game_executable
                  {| fs := {["/apps/Games--Game--1604433600.25.desktop"
                            := Dir]};
                     trace := []; now := "1604433600.25" |} H1)).
  vm_compute. reflexivity.
Defined.
